(** * Point placement on manifolds: [source/grid/manifold.cc]

    A shallow embedding of deal.II's [Manifold], [FlatManifold] and
    [ManifoldChart] classes and of the default quadrature builders of
    namespace [Manifolds], followed by the properties of the specification
    that concern them.

    Modelling decisions.
    - [double] has two models.  The main one is the canonical rationals
      [Qc]: arithmetic is exact, literals of the source are written through
      [Q2Qc] ([.5] is [Q2Qc 0.5], [1e-10] is [Q2Qc 1e-10]).  It carries the
      properties that do not depend on rounding: which assertion fires, which
      samples and weights a quadrature holds, which sum a function
      accumulates and which function it agrees with.  Module [Binary64]
      embeds the two [get_new_point]s a second time over the primitive
      binary64 floats, where the code is evaluated on concrete inputs; the
      value a call returns is stated there.
    - [Point<spacedim>] is a vector of [spacedim] scalars ([vec Qc spacedim]);
      an axis index [d < spacedim] is an element of [fin spacedim].
    - [std::vector] is a list; [v[i]] on the right of an assignment is the
      total lookup, on the left it is the list insert.
    - a failed assertion is an explicit error result; code that can fail
      lives in the monad [result]. *)

From Stdlib Require Import QArith Qcanon Qcabs Field Lqa PrimFloat.
From stdpp Require Import base decidable numbers list vector fin finite strings.

Local Open Scope Qc_scope.
#[local] Set Warnings "-inexact-float".

(** ** Scalars *)

(** [a < b] on [double], as a boolean. *)
Definition ltb (a b : Qc) : bool := bool_decide (a < b).

Module std.

(** [std::min(a, b)]: [b] when [b < a], else [a]. *)
Definition min (a b : Qc) : Qc := if ltb b a then b else a.

(** [std::abs]. *)
Definition abs (a : Qc) : Qc := Qcabs a.

(** [std::fill(v.begin() + first, v.begin() + last, x)]. *)
Definition fill {T : Type} (first last : nat) (x : T) (v : list T) : list T :=
  foldl (λ v i, <[i := x]> v) v (seq first (last - first)).

End std.

(** ** Exceptions and the error monad *)

(** The exceptions that the file hands to [Assert]. *)
Inductive Exc : Type :=
| ExcPureFunctionCalled
| ExcInternalError
| ExcImpossibleInDim (dim : nat)
| ExcDimensionMismatch (a b : nat)
| ExcMessage (msg : string).

Inductive result (A : Type) : Type :=
| Ok (a : A)
| Raise (e : Exc).

Arguments Ok {A} a.
Arguments Raise {A} e.

Global Instance result_ret : MRet result := λ A a, Ok a.

Global Instance result_bind : MBind result := λ A B f m,
  match m with
  | Ok a => f a
  | Raise e => Raise e
  end.

Global Instance result_fmap : FMap result := λ A B f m,
  match m with
  | Ok a => Ok (f a)
  | Raise e => Raise e
  end.

(** Modelled from the spec: the [Assert] macro of deal.II's exception header,
    which is not part of these sources.  Sections 7 and 9 of the
    specification: a violated condition is a contract violation that aborts
    the point-placement computation in progress. *)
Definition Assert (cond : bool) (exc : Exc) : result unit :=
  if cond then Ok () else Raise exc.

(** Modelled from the spec: [AssertDimension(a, b)], a macro of the same
    header; the contract is that the two dimensions agree. *)
Definition AssertDimension (a b : nat) : result unit :=
  Assert (bool_decide (a = b)) (ExcDimensionMismatch a b).

(** A [for] loop whose body may fail: the state is threaded through the
    iterations and the first failure ends the loop. *)
Fixpoint for_each {I S : Type} (range : list I) (body : I → S → result S)
    (s : S) : result S :=
  match range with
  | [] => Ok s
  | i :: range => s' ← body i s; for_each range body s'
  end.

(** ** Points *)

(** Modelled from the spec: [Point<N>] of deal.II's point and tensor headers,
    an [N]-component real coordinate vector with componentwise addition and
    multiplication by a scalar; the default constructor gives the origin. *)
Abbreviation Point := (vec Qc).

Module Point.
Section Ops.
Context {spacedim : nat}.

(** [Point<spacedim>()] *)
Definition zero : Point spacedim := vreplicate spacedim 0.

(** [p + q] *)
Definition add (p q : Point spacedim) : Point spacedim := vzip_with Qcplus p q.

(** [p * w] *)
Definition scale (p : Point spacedim) (w : Qc) : Point spacedim :=
  vmap (λ x, x * w) p.

(** The axes [0, 1, ..., spacedim-1] in loop order. *)
Definition axes : list (fin spacedim) := enum (fin spacedim).

(** [p.square()]: the sum of the squares of the coordinates. *)
Definition norm_square (p : Point spacedim) : Qc :=
  foldl (λ s d, s + p !!! d * p !!! d) 0 axes.

(** [p.norm() != 0].  The Euclidean norm is the square root of
    [norm_square]; it is zero exactly when [norm_square] is. *)
Definition norm_nonzero (p : Point spacedim) : bool :=
  negb (bool_decide (norm_square p = 0)).

End Ops.
End Point.

(** ** Quadratures *)

(** Modelled from the spec: [Quadrature<N>] of deal.II's quadrature header,
    two positionally aligned sequences, the sample points and the weights. *)
Record Quadrature (spacedim : nat) : Type := mkQuadrature {
  get_points : list (Point spacedim);
  get_weights : list Qc
}.

Arguments mkQuadrature {spacedim} _ _.
Arguments get_points {spacedim} _.
Arguments get_weights {spacedim} _.

(** ** The mesh, as the builders see it *)

(** Modelled from the spec: the accessors behind [TriaIterator] (section 6,
    [GeometricEntityAccessor]), declared in deal.II's triangulation headers.
    The builders use an entity only through these queries, so the entity
    type is a parameter. *)
Class TriaAccessor (spacedim : nat) (Accessor : Type) : Type := {
  vertex : Accessor → nat → Point spacedim;
  center : Accessor → Point spacedim;
  line : Accessor → nat → Accessor;
  face : Accessor → nat → Accessor;
  has_children : Accessor → bool;
  child : Accessor → nat → Accessor;
  isotropic_child : Accessor → nat → Accessor
}.

(** Modelled from the spec: the constants of [GeometryInfo<dim>] that the hex
    builder uses (section 4.1: a hexahedron has 8 corner vertices, 12 edges
    and 6 faces). *)
Module GeometryInfo.

Definition vertices_per_cell (dim : nat) : nat := 2 ^ dim.

Definition lines_per_cell (dim : nat) : nat :=
  match dim with
  | 1 => 1
  | 2 => 4
  | 3 => 12
  | _ => 0
  end.

Definition faces_per_cell (dim : nat) : nat := 2 * dim.

End GeometryInfo.

(** ** Namespace [Manifolds]: the default quadratures *)

Module Manifolds.
Section Builders.
Context {spacedim : nat} {Accessor : Type} `{!TriaAccessor spacedim Accessor}.

(** The loop variables of the hex builder: the two vectors and the running
    index [j]. *)
Definition fill_state : Type := list (Point spacedim) * list Qc * nat.

(** [get_default_quadrature(const TriaIterator<CellAccessor<3, 3> > &,
    Quadrature<3> &)]; the result is returned instead of assigned to the
    reference.  The body does not depend on the space dimension, which is left
    as it is in the context. *)
Definition get_default_quadrature_hex (obj : Accessor) : Quadrature spacedim :=
  let sp : list (Point spacedim) := [] in
  let wp : list Qc := [] in
  let dim := 3%nat in
  let np := (GeometryInfo.vertices_per_cell dim +
             GeometryInfo.lines_per_cell dim +
             GeometryInfo.faces_per_cell dim)%nat in
  let sp := resize np Point.zero sp in
  let wp := resize np 0 wp in
  let j := 0%nat in
  let '(sp, wp, j) :=
    foldl (λ '(sp, wp, j) i,
             (<[j := vertex obj i]> sp,
              <[j := Q2Qc 1.0 / Q2Qc 128.0]> wp,
              S j))
          ((sp, wp, j) : fill_state)
          (seq 0 (GeometryInfo.vertices_per_cell dim)) in
  let '(sp, wp, j) :=
    foldl (λ '(sp, wp, j) i,
             (<[j := if has_children (line obj i)
                     then vertex (child (line obj i) 0) 1
                     else center (line obj i)]> sp,
              <[j := Q2Qc 7.0 / Q2Qc 192.0]> wp,
              S j))
          ((sp, wp, j) : fill_state)
          (seq 0 (GeometryInfo.lines_per_cell dim)) in
  let '(sp, wp, j) :=
    foldl (λ '(sp, wp, j) i,
             (<[j := if has_children (face obj i)
                     then vertex (isotropic_child (face obj i) 0) 3
                     else center (face obj i)]> sp,
              <[j := Q2Qc 1.0 / Q2Qc 12.0]> wp,
              S j))
          ((sp, wp, j) : fill_state)
          (seq 0 (GeometryInfo.faces_per_cell dim)) in
  mkQuadrature sp wp.

(** [OBJECT::AccessorType::space_dimension]: the accessor's space dimension,
    which the typing of [TriaAccessor] fixes to [spacedim]. *)
Definition space_dimension : nat := spacedim.

(** The template [get_default_quadrature(const OBJECT &, Quadrature<spacedim>
    &, bool with_laplace = false)]; [structure_dimension] is
    [OBJECT::AccessorType::structure_dimension]. *)
Definition get_default_quadrature (structure_dimension : nat) (obj : Accessor)
    (with_laplace : bool) : result (Quadrature spacedim) :=
  let sp : list (Point spacedim) := [] in
  let wp : list Qc := [] in
  let dim := structure_dimension in
  AssertDimension spacedim space_dimension;;
  '(sp, wp) ←
    match dim with
    | 1%nat =>
        let sp := resize 2 Point.zero sp in
        let wp := resize 2 0 wp in
        let sp := <[0%nat := vertex obj 0]> sp in
        let wp := <[0%nat := Q2Qc 0.5]> wp in
        let sp := <[1%nat := vertex obj 1]> sp in
        let wp := <[1%nat := Q2Qc 0.5]> wp in
        Ok (sp, wp)
    | 2%nat =>
        let sp := resize 8 Point.zero sp in
        let wp := resize 8 0 wp in
        let sp := <[0%nat := vertex obj 0]> sp in
        let sp := <[1%nat := vertex obj 1]> sp in
        let sp := <[2%nat := vertex obj 2]> sp in
        let sp := <[3%nat := vertex obj 3]> sp in
        let sp := <[4%nat := if has_children (line obj 0)
                             then vertex (child (line obj 0) 0) 1
                             else center (line obj 0)]> sp in
        let sp := <[5%nat := if has_children (line obj 1)
                             then vertex (child (line obj 1) 0) 1
                             else center (line obj 1)]> sp in
        let sp := <[6%nat := if has_children (line obj 2)
                             then vertex (child (line obj 2) 0) 1
                             else center (line obj 2)]> sp in
        let sp := <[7%nat := if has_children (line obj 3)
                             then vertex (child (line obj 3) 0) 1
                             else center (line obj 3)]> sp in
        let wp :=
          if with_laplace
          then
            let wp := std.fill 0 4 (Q2Qc 1.0 / Q2Qc 16.0) wp in
            std.fill 4 (length wp) (Q2Qc 3.0 / Q2Qc 16.0) wp
          else std.fill 0 (length wp) (Q2Qc 1.0 / Q2Qc 8.0) wp in
        Ok (sp, wp)
    | _ =>
        Assert false ExcInternalError;;
        Ok (sp, wp)
    end;
  Ok (mkQuadrature sp wp).

End Builders.
End Manifolds.

(** ** [Manifold<dim, spacedim>] *)

(** Reading past the end of a [std::vector] is undefined in the source; the
    total lookup gives the origin, or zero, there.  The loops below stay
    within the sample points, and within the weights of an aligned
    quadrature. *)
Global Instance Qc_inhabited : Inhabited Qc := populate 0.

Module Manifold.
Section Class.
Context {spacedim : nat} {Accessor : Type} `{!TriaAccessor spacedim Accessor}.

(** Whether the translation unit is compiled with [DEBUG] defined. *)
Variable DEBUG : bool.

(** The [#ifdef DEBUG] block shared by the two [get_new_point]s. *)
Definition check_weights (weights : list Qc) : result unit :=
  if DEBUG then
    let sum := foldl (λ sum i, sum + weights !!! i) 0
                 (seq 0 (length weights)) in
    Assert (ltb (std.abs (sum - Q2Qc 1.0)) (Q2Qc 1e-10))
      (ExcMessage "Weights should sum to 1!")
  else Ok ().

(** [Manifold::project_to_manifold], the implementation of the base class. *)
Definition project_to_manifold (_ : list (Point spacedim))
    (_ : Point spacedim) : result (Point spacedim) :=
  Assert false ExcPureFunctionCalled;;
  Ok Point.zero.

Section Virtual.

(** The final overrider of the virtual [project_to_manifold] in the object the
    member functions are called on. *)
Variable this_project_to_manifold :
  list (Point spacedim) → Point spacedim → result (Point spacedim).

(** [Manifold::get_new_point] *)
Definition get_new_point (quad : Quadrature spacedim)
    : result (Point spacedim) :=
  let surrounding_points := get_points quad in
  let weights := get_weights quad in
  let p : Point spacedim := Point.zero in
  check_weights weights;;
  let p :=
    foldl (λ p i,
             Point.add p (Point.scale (surrounding_points !!! i)
                                      (weights !!! i)))
          p (seq 0 (length surrounding_points)) in
  this_project_to_manifold surrounding_points p.

End Virtual.

Section Entities.

(** The topological dimension [dim] of the manifold. *)
Variable dim : nat.

(** The final overrider of the virtual [get_new_point]. *)
Variable this_get_new_point : Quadrature spacedim → result (Point spacedim).

(** [Manifold::get_new_point_on_line]; a line iterator has structure
    dimension 1. *)
Definition get_new_point_on_line (line : Accessor) : result (Point spacedim) :=
  quadrature ← Manifolds.get_default_quadrature 1 line false;
  this_get_new_point quadrature.

(** [Manifold::get_new_point_on_quad], the primary template; a quad iterator
    has structure dimension 2. *)
Definition get_new_point_on_quad_template (quad : Accessor)
    : result (Point spacedim) :=
  quadrature ← Manifolds.get_default_quadrature 2 quad false;
  this_get_new_point quadrature.

(** [Manifold<1,1>::get_new_point_on_quad], and the same body for
    [Manifold<1,2>] and [Manifold<1,3>]. *)
Definition get_new_point_on_quad_1 (_ : Accessor) : result (Point spacedim) :=
  Assert false (ExcImpossibleInDim 1);;
  Ok Point.zero.

(** The explicit specialisations for [dim = 1] exist for the space dimensions
    1, 2 and 3. *)
Definition specialised_1 : bool :=
  bool_decide (dim = 1%nat ∧ (1 ≤ spacedim ≤ 3)%nat).

(** [get_new_point_on_quad] as the compiler resolves it for
    [Manifold<dim, spacedim>]. *)
Definition get_new_point_on_quad (quad : Accessor) : result (Point spacedim) :=
  if specialised_1 then get_new_point_on_quad_1 quad
  else get_new_point_on_quad_template quad.

(** [Manifold::get_new_point_on_face], the primary template. *)
Definition get_new_point_on_face_template (face : Accessor)
    : result (Point spacedim) :=
  Assert (bool_decide (1 < dim)%nat) (ExcImpossibleInDim dim);;
  match dim with
  | 2%nat => get_new_point_on_line face
  | 3%nat => get_new_point_on_quad face
  | _ => Ok Point.zero
  end.

(** [Manifold<1,1>::get_new_point_on_face], and the same body for
    [Manifold<1,2>] and [Manifold<1,3>]. *)
Definition get_new_point_on_face_1 (_ : Accessor) : result (Point spacedim) :=
  Assert false (ExcImpossibleInDim 1);;
  Ok Point.zero.

(** [get_new_point_on_face] as the compiler resolves it. *)
Definition get_new_point_on_face (face : Accessor) : result (Point spacedim) :=
  if specialised_1 then get_new_point_on_face_1 face
  else get_new_point_on_face_template face.

(** [Manifold::get_new_point_on_hex], the primary template. *)
Definition get_new_point_on_hex_template (hex : Accessor)
    : result (Point spacedim) :=
  Assert false (ExcImpossibleInDim dim);;
  Ok Point.zero.

(** [Manifold<3,3>::get_new_point_on_hex]: the call resolves to the hex
    overload of [get_default_quadrature]. *)
Definition get_new_point_on_hex_3_3 (hex : Accessor)
    : result (Point spacedim) :=
  let quadrature := Manifolds.get_default_quadrature_hex hex in
  this_get_new_point quadrature.

(** [get_new_point_on_hex] as the compiler resolves it. *)
Definition get_new_point_on_hex (hex : Accessor) : result (Point spacedim) :=
  if bool_decide (dim = 3%nat ∧ spacedim = 3%nat)
  then get_new_point_on_hex_3_3 hex
  else get_new_point_on_hex_template hex.

(** [Manifold::get_new_point_on_cell] *)
Definition get_new_point_on_cell (cell : Accessor) : result (Point spacedim) :=
  match dim with
  | 1%nat => get_new_point_on_line cell
  | 2%nat => get_new_point_on_quad cell
  | 3%nat => get_new_point_on_hex cell
  | _ => Ok Point.zero
  end.

End Entities.
End Class.
End Manifold.

(** ** [FlatManifold<dim, spacedim>] *)

Module FlatManifold.
Section Class.
Context {spacedim : nat}.
Variable DEBUG : bool.

(** The data member set by the constructor. *)
Variable periodicity : Point spacedim.

(** [FlatManifold::project_to_manifold].  It is the final overrider of the
    virtual function in a [FlatManifold] object, so the call that ends
    [get_new_point] below goes to it. *)
Definition project_to_manifold (vertices : list (Point spacedim))
    (candidate : Point spacedim) : result (Point spacedim) :=
  Ok candidate.

(** The body of the first loop of [get_new_point] for the sample [i] and the
    axis [d]. *)
Definition bound_step (surrounding_points : list (Point spacedim)) (i : nat)
    (d : fin spacedim) (minP : Point spacedim) : result (Point spacedim) :=
  let minP :=
    vinsert d (std.min (minP !!! d) ((surrounding_points !!! i) !!! d)) minP in
  (if ltb 0 (periodicity !!! d)
   then Assert (ltb ((surrounding_points !!! i) !!! d)
                    (periodicity !!! d + Q2Qc 1e-10))
          (ExcMessage
             "One of the points does not lye into the periodic box! Bailing out.")
   else Ok ());;
  Ok minP.

(** The shift [dp] of the sample [i] in the second loop. *)
Definition shift (check_period : bool) (minP : Point spacedim)
    (surrounding_points : list (Point spacedim)) (i : nat) : Point spacedim :=
  let dp : Point spacedim := Point.zero in
  if check_period then
    foldl (λ dp d,
             if ltb 0 (periodicity !!! d)
             then vinsert d
                    (if ltb (periodicity !!! d / Q2Qc 2.0)
                            ((surrounding_points !!! i) !!! d - minP !!! d)
                     then - periodicity !!! d
                     else Q2Qc 0.0)
                    dp
             else dp)
          dp Point.axes
  else dp.

(** [FlatManifold::get_new_point] *)
Definition get_new_point (quad : Quadrature spacedim)
    : result (Point spacedim) :=
  let surrounding_points := get_points quad in
  let weights := get_weights quad in
  Manifold.check_weights DEBUG weights;;
  let p : Point spacedim := Point.zero in
  let minP := periodicity in
  let check_period := Point.norm_nonzero periodicity in
  minP ←
    (if check_period then
       for_each (seq 0 (length surrounding_points))
         (λ i minP, for_each Point.axes (bound_step surrounding_points i) minP)
         minP
     else Ok minP);
  let p :=
    foldl (λ p i,
             let dp := shift check_period minP surrounding_points i in
             Point.add p (Point.scale
                            (Point.add (surrounding_points !!! i) dp)
                            (weights !!! i)))
          p (seq 0 (length surrounding_points)) in
  let p :=
    if check_period then
      foldl (λ p d,
               if ltb 0 (periodicity !!! d)
               then vinsert d
                      (if ltb (p !!! d) 0
                       then p !!! d + periodicity !!! d
                       else p !!! d)
                      p
               else p)
            p Point.axes
    else p in
  project_to_manifold surrounding_points p.

End Class.
End FlatManifold.

(** ** [ManifoldChart<dim, spacedim, chartdim>] *)

Module ManifoldChart.
Section Class.
Context {spacedim chartdim : nat}.
Variable DEBUG : bool.

(** The pure virtual functions that a concrete chart supplies. *)
Variable pull_back : Point spacedim → Point chartdim.
Variable push_forward : Point chartdim → Point spacedim.

(** The periodicity handed to the constructor of the member [sub_manifold],
    a [FlatManifold<dim, chartdim>]. *)
Variable periodicity : Point chartdim.

(** [ManifoldChart::get_new_point] *)
Definition get_new_point (quad : Quadrature spacedim)
    : result (Point spacedim) :=
  let surrounding_points := get_points quad in
  let weights := get_weights quad in
  let chart_points : list (Point chartdim) :=
    replicate (length surrounding_points) Point.zero in
  let chart_points :=
    foldl (λ chart_points i,
             <[i := pull_back (surrounding_points !!! i)]> chart_points)
          chart_points (seq 0 (length surrounding_points)) in
  let chart_quad := mkQuadrature chart_points weights in
  p_chart ← FlatManifold.get_new_point DEBUG periodicity chart_quad;
  Ok (push_forward p_chart).

End Class.
End ManifoldChart.

(** ** [Manifold] and [FlatManifold] over binary64 *)

(** The modules above compute with exact rationals.  What the program
    returns as a value also depends on rounding, so the two
    [get_new_point]s are embedded a second time over IEEE binary64 numbers,
    the primitive floats: a decimal literal of the source is the nearest
    double, as the compiler reads it, and every operation rounds to nearest,
    ties to even.  The control flow is the one of the modules above, line
    for line. *)
Module Binary64.

Local Open Scope float_scope.

Global Instance float_inhabited : Inhabited float := populate 0.

(** [Point<spacedim>] with [double] coordinates. *)
Abbreviation Point := (vec float).

Module Point.
Section Ops.
Context {spacedim : nat}.

(** [Point<spacedim>()] *)
Definition zero : Point spacedim := vreplicate spacedim 0.

(** [p + q] *)
Definition add (p q : Point spacedim) : Point spacedim :=
  vzip_with PrimFloat.add p q.

(** [p * w] *)
Definition scale (p : Point spacedim) (w : float) : Point spacedim :=
  vmap (λ x, x * w) p.

(** The axes [0, 1, ..., spacedim-1] in loop order. *)
Definition axes : list (fin spacedim) := enum (fin spacedim).

(** [p.square()] *)
Definition norm_square (p : Point spacedim) : float :=
  foldl (λ s d, s + p !!! d * p !!! d) 0 axes.

(** [p.norm()], the square root of [norm_square]. *)
Definition norm (p : Point spacedim) : float := sqrt (norm_square p).

End Ops.
End Point.

Module std.

(** [std::min(a, b)]: [b] when [b < a], else [a]. *)
Definition min (a b : float) : float := if b <? a then b else a.

End std.

(** [Quadrature<spacedim>] with [double] coordinates and weights. *)
Record Quadrature (spacedim : nat) : Type := mkQuadrature {
  get_points : list (Point spacedim);
  get_weights : list float
}.

Arguments mkQuadrature {spacedim} _ _.
Arguments get_points {spacedim} _.
Arguments get_weights {spacedim} _.

Module Manifold.
Section Class.
Context {spacedim : nat}.
Variable DEBUG : bool.

(** The [#ifdef DEBUG] block shared by the two [get_new_point]s. *)
Definition check_weights (weights : list float) : result unit :=
  if DEBUG then
    let sum := foldl (λ sum i, sum + weights !!! i) 0
                 (seq 0 (length weights)) in
    Assert (abs (sum - 1.0) <? 1e-10)
      (ExcMessage "Weights should sum to 1!")
  else Ok ().

(** The final overrider of the virtual [project_to_manifold]. *)
Variable this_project_to_manifold :
  list (Point spacedim) → Point spacedim → result (Point spacedim).

(** [Manifold::get_new_point] *)
Definition get_new_point (quad : Quadrature spacedim)
    : result (Point spacedim) :=
  let surrounding_points := get_points quad in
  let weights := get_weights quad in
  let p : Point spacedim := Point.zero in
  check_weights weights;;
  let p :=
    foldl (λ p i,
             Point.add p (Point.scale (surrounding_points !!! i)
                                      (weights !!! i)))
          p (seq 0 (length surrounding_points)) in
  this_project_to_manifold surrounding_points p.

End Class.
End Manifold.

Module FlatManifold.
Section Class.
Context {spacedim : nat}.
Variable DEBUG : bool.
Variable periodicity : Point spacedim.

(** [FlatManifold::project_to_manifold] *)
Definition project_to_manifold (vertices : list (Point spacedim))
    (candidate : Point spacedim) : result (Point spacedim) :=
  Ok candidate.

(** The body of the first loop for the sample [i] and the axis [d]. *)
Definition bound_step (surrounding_points : list (Point spacedim)) (i : nat)
    (d : fin spacedim) (minP : Point spacedim) : result (Point spacedim) :=
  let minP :=
    vinsert d (std.min (minP !!! d) ((surrounding_points !!! i) !!! d)) minP in
  (if 0 <? periodicity !!! d
   then Assert ((surrounding_points !!! i) !!! d <? periodicity !!! d + 1e-10)
          (ExcMessage
             "One of the points does not lye into the periodic box! Bailing out.")
   else Ok ());;
  Ok minP.

(** The shift [dp] of the sample [i] in the second loop. *)
Definition shift (check_period : bool) (minP : Point spacedim)
    (surrounding_points : list (Point spacedim)) (i : nat) : Point spacedim :=
  let dp : Point spacedim := Point.zero in
  if check_period then
    foldl (λ dp d,
             if 0 <? periodicity !!! d
             then vinsert d
                    (if periodicity !!! d / 2.0 <?
                        (surrounding_points !!! i) !!! d - minP !!! d
                     then - periodicity !!! d
                     else 0.0)
                    dp
             else dp)
          dp Point.axes
  else dp.

(** [FlatManifold::get_new_point] *)
Definition get_new_point (quad : Quadrature spacedim)
    : result (Point spacedim) :=
  let surrounding_points := get_points quad in
  let weights := get_weights quad in
  Manifold.check_weights DEBUG weights;;
  let p : Point spacedim := Point.zero in
  let minP := periodicity in
  let check_period := negb (Point.norm periodicity =? 0) in
  minP ←
    (if check_period then
       for_each (seq 0 (length surrounding_points))
         (λ i minP, for_each Point.axes (bound_step surrounding_points i) minP)
         minP
     else Ok minP);
  let p :=
    foldl (λ p i,
             let dp := shift check_period minP surrounding_points i in
             Point.add p (Point.scale
                            (Point.add (surrounding_points !!! i) dp)
                            (weights !!! i)))
          p (seq 0 (length surrounding_points)) in
  let p :=
    if check_period then
      foldl (λ p d,
               if 0 <? periodicity !!! d
               then vinsert d
                      (if p !!! d <? 0
                       then p !!! d + periodicity !!! d
                       else p !!! d)
                      p
               else p)
            p Point.axes
    else p in
  project_to_manifold surrounding_points p.

End Class.
End FlatManifold.

(** Every coordinate of [p] is within [tolerance] of the one of [q]. *)
Definition near {spacedim : nat} (tolerance : float) (p q : Point spacedim)
    : bool :=
  forallb (λ d, abs (p !!! d - q !!! d) <? tolerance) Point.axes.

(** The first coordinate of a returned point; not a number on failure. *)
Definition first_coordinate {spacedim : nat}
    (r : result (Point (S spacedim))) : float :=
  match r with
  | Ok p => p !!! 0%fin
  | Raise _ => nan
  end.

(** The line of period 1.0. *)
Definition circle : Point 1 := [# 1.0].

(** Two samples of weight 0.5 at 0.1 and 0.9. *)
Definition across_seam : Quadrature 1 :=
  mkQuadrature [[# 0.1]; [# 0.9]] [0.5; 0.5].



End Binary64.

(** ** The notions of the specification *)

Global Instance Exc_eq_dec : EqDecision Exc.
Proof. solve_decision. Defined.

Global Instance result_eq_dec {A : Type} `{EqDecision A} : EqDecision (result A).
Proof. solve_decision. Defined.

Module Spec.
Section Notions.
Context {spacedim : nat}.

(** [w · p]: the sample [p] weighted by [w]. *)
Definition weighted (w : Qc) (p : Point spacedim) : Point spacedim :=
  vmap (λ x, w * x) p.

(** [Σ_i weight_i · sample_i] over the aligned pairs of two sequences. *)
Fixpoint weighted_sum (samples : list (Point spacedim)) (weights : list Qc)
    : Point spacedim :=
  match samples, weights with
  | p :: samples, w :: weights =>
      Point.add (weighted w p) (weighted_sum samples weights)
  | _, _ => Point.zero
  end.

(** The weighted centroid of a quadrature. *)
Definition weighted_centroid (quad : Quadrature spacedim) : Point spacedim :=
  weighted_sum (get_points quad) (get_weights quad).

(** The sum of a sequence of weights. *)
Definition total (weights : list Qc) : Qc := foldr Qcplus 0 weights.

(** Sample points and weights are positionally aligned. *)
Definition aligned (quad : Quadrature spacedim) : Prop :=
  length (get_points quad) = length (get_weights quad).

(** The invariant of a quadrature: its weights sum to 1.0 within 1e-10. *)
Definition normalised (quad : Quadrature spacedim) : Prop :=
  Qcabs (total (get_weights quad) - 1) < Q2Qc 1e-10.

(** The bound that [FlatManifold::get_new_point] asserts on the samples: on
    every axis of positive period the coordinate is below the period, within
    1e-10. *)
Definition below_period (periodicity : Point spacedim)
    (quad : Quadrature spacedim) : Prop :=
  ∀ (s : Point spacedim) (d : fin spacedim),
    s ∈ get_points quad → 0 < periodicity !!! d →
    s !!! d < periodicity !!! d + Q2Qc 1e-10.

(** The periodic box: on every axis of positive period [L] the coordinate
    lies in [[0, L)]. *)
Definition in_periodic_box (periodicity P : Point spacedim) : Prop :=
  ∀ d : fin spacedim, 0 < periodicity !!! d → 0 ≤ P !!! d < periodicity !!! d.

End Notions.

Section Samples.
Context {spacedim : nat} {Accessor : Type} `{!TriaAccessor spacedim Accessor}.

(** The sample of the edge [i] of an entity: the vertex shared by the
    children of the edge when it is refined, its center otherwise. *)
Definition edge_sample (obj : Accessor) (i : nat) : Point spacedim :=
  if has_children (line obj i) then vertex (child (line obj i) 0) 1
  else center (line obj i).

(** The sample of the face [i] of a hexahedron: the interior vertex of the
    isotropic children of the face when it is refined, its center otherwise. *)
Definition face_sample (obj : Accessor) (i : nat) : Point spacedim :=
  if has_children (face obj i) then vertex (isotropic_child (face obj i) 0) 3
  else center (face obj i).

End Samples.
End Spec.

(** ** A concrete mesh entity *)

(** A finite tree of entities to run the builders on: an entity lists its
    vertices, its center, its lines, its faces and its children. *)
Module Mesh.

Local Unset Elimination Schemes.

Inductive Entity (spacedim : nat) : Type :=
| mkEntity (vertices : list (Point spacedim)) (mid : Point spacedim)
    (lines faces children : list (Entity spacedim)).

Local Set Elimination Schemes.

Arguments mkEntity {spacedim} _ _ _ _ _.

Section Queries.
Context {spacedim : nat}.

Definition vertices (e : Entity spacedim) : list (Point spacedim) :=
  match e with mkEntity vs _ _ _ _ => vs end.

Definition mid (e : Entity spacedim) : Point spacedim :=
  match e with mkEntity _ c _ _ _ => c end.

Definition lines (e : Entity spacedim) : list (Entity spacedim) :=
  match e with mkEntity _ _ ls _ _ => ls end.

Definition faces (e : Entity spacedim) : list (Entity spacedim) :=
  match e with mkEntity _ _ _ fs _ => fs end.

Definition children (e : Entity spacedim) : list (Entity spacedim) :=
  match e with mkEntity _ _ _ _ cs => cs end.

Definition nth_entity (es : list (Entity spacedim)) (i : nat)
    : Entity spacedim :=
  default (mkEntity [] Point.zero [] [] []) (es !! i).

Global Instance accessor : TriaAccessor spacedim (Entity spacedim) := {|
  vertex e i := vertices e !!! i;
  center := mid;
  line e := nth_entity (lines e);
  face e := nth_entity (faces e);
  has_children e := match children e with [] => false | _ => true end;
  child e := nth_entity (children e);
  isotropic_child e := nth_entity (children e)
|}.

End Queries.

(** The segment between two points, unrefined. *)
Definition segment {spacedim : nat} (a b : Point spacedim) : Entity spacedim :=
  mkEntity [a; b] (Point.scale (Point.add a b) (Q2Qc 0.5)) [] [] [].

(** The quadrilateral on four corners, unrefined; lines in deal.II's order. *)
Definition quadrilateral {spacedim : nat} (a b c d : Point spacedim)
    : Entity spacedim :=
  mkEntity [a; b; c; d]
    (Point.scale (Point.add (Point.add a b) (Point.add c d)) (Q2Qc 0.25))
    [segment a c; segment b d; segment a b; segment c d] [] [].

(** The corner [(x, y, z)] of the unit cube. *)
Definition corner (x y z : Q) : Point 3 := [# Q2Qc x; Q2Qc y; Q2Qc z].

(** The unit cube, unrefined, with the vertices, lines and faces in deal.II's
    order. *)
Definition unit_cube : Entity 3 :=
  let v0 := corner 0 0 0 in let v1 := corner 1 0 0 in
  let v2 := corner 0 1 0 in let v3 := corner 1 1 0 in
  let v4 := corner 0 0 1 in let v5 := corner 1 0 1 in
  let v6 := corner 0 1 1 in let v7 := corner 1 1 1 in
  mkEntity [v0; v1; v2; v3; v4; v5; v6; v7]
    [# Q2Qc 0.5; Q2Qc 0.5; Q2Qc 0.5]
    [segment v0 v2; segment v1 v3; segment v0 v1; segment v2 v3;
     segment v4 v6; segment v5 v7; segment v4 v5; segment v6 v7;
     segment v0 v4; segment v1 v5; segment v2 v6; segment v3 v7]
    [quadrilateral v0 v2 v4 v6; quadrilateral v1 v3 v5 v7;
     quadrilateral v0 v4 v1 v5; quadrilateral v2 v6 v3 v7;
     quadrilateral v0 v1 v2 v3; quadrilateral v4 v5 v6 v7]
    [].

(** The unit interval on the line. *)
Definition unit_interval : Entity 1 := segment [# Q2Qc 0] [# Q2Qc 1].

End Mesh.

(** ** The steps of [FlatManifold::get_new_point], named for the proofs *)

Module Steps.
Section Steps.
Context {spacedim : nat}.

(** The shape of the loops over the axes: [v[d]] receives a value computed
    from [d] and the old [v[d]], on the axes selected by [c]. *)
Definition update_axis (c : fin spacedim → bool)
    (f : fin spacedim → Qc → Qc) (v : Point spacedim) (d : fin spacedim)
    : Point spacedim :=
  if c d then vinsert d (f d (v !!! d)) v else v.

(** The assertion of the first loop holds for the sample [s] on the axis
    [d]. *)
Definition axis_ok (periodicity s : Point spacedim) (d : fin spacedim) : bool :=
  if ltb 0 (periodicity !!! d)
  then ltb (s !!! d) (periodicity !!! d + Q2Qc 1e-10)
  else true.

(** [minP] when the first loop has run over all the samples. *)
Definition lowest (periodicity : Point spacedim)
    (surrounding_points : list (Point spacedim)) : Point spacedim :=
  foldl (vzip_with std.min) periodicity surrounding_points.

(** The sum accumulated by the second loop. *)
Definition accumulated (periodicity : Point spacedim) (check_period : bool)
    (minP : Point spacedim) (quad : Quadrature spacedim) : Point spacedim :=
  foldl (λ p i,
           Point.add p
             (Point.scale
                (Point.add (get_points quad !!! i)
                   (FlatManifold.shift periodicity check_period minP
                      (get_points quad) i))
                (get_weights quad !!! i)))
        Point.zero (seq 0 (length (get_points quad))).

(** The third loop: a negative coordinate on a periodic axis is moved up by
    the period. *)
Definition wrapped (periodicity p : Point spacedim) : Point spacedim :=
  foldl (update_axis (λ d, ltb 0 (periodicity !!! d))
           (λ d x, if ltb x 0 then x + periodicity !!! d else x))
        p Point.axes.

(** The candidate handed to [project_to_manifold] when no assertion fails. *)
Definition candidate (periodicity : Point spacedim)
    (quad : Quadrature spacedim) : Point spacedim :=
  if Point.norm_nonzero periodicity
  then wrapped periodicity
         (accumulated periodicity true
            (lowest periodicity (get_points quad)) quad)
  else accumulated periodicity false periodicity quad.

End Steps.
End Steps.

(** ** Concrete inputs *)

Module Inputs.

(** The line of period 1. *)
Definition circle : Point 1 := [# Q2Qc 1.0].

(** Two samples of equal weight at 0.1 and 0.9. *)
Definition across_seam : Quadrature 1 :=
  mkQuadrature [[# Q2Qc 0.1]; [# Q2Qc 0.9]] [Q2Qc 0.5; Q2Qc 0.5].

(** One sample at -5.0, below the periodic box of [circle]. *)
Definition below_box : Quadrature 1 :=
  mkQuadrature [[# Q2Qc (-5.0)]] [Q2Qc 1.0].

(** One sample at 1.5, above the periodic box of [circle]. *)
Definition above_box : Quadrature 1 :=
  mkQuadrature [[# Q2Qc 1.5]] [Q2Qc 1.0].

(** The plane with period 1 along the first axis and none along the second. *)
Definition cylinder : Point 2 := [# Q2Qc 1.0; Q2Qc 0.0].



(** Two samples of equal weight on either side of the seam of [cylinder]. *)
Definition seam_quadrature : Quadrature 2 :=
  mkQuadrature [[# Q2Qc 0.1; Q2Qc 2.0]; [# Q2Qc 0.9; Q2Qc 4.0]]
    [Q2Qc 0.5; Q2Qc 0.5].

(** Two samples whose weights miss 1 by a tenth. *)
Definition lopsided : Quadrature 1 :=
  mkQuadrature [[# Q2Qc 0.1]; [# Q2Qc 0.9]] [Q2Qc 0.5; Q2Qc 0.4].

(** The line without period. *)
Definition open_line : Point 1 := [# Q2Qc 0.0].

(** Two samples of equal weight on one side of the seam of [cylinder]. *)
Definition near_quadrature : Quadrature 2 :=
  mkQuadrature [[# Q2Qc 0.2; Q2Qc 2.0]; [# Q2Qc 0.4; Q2Qc 4.0]]
    [Q2Qc 0.5; Q2Qc 0.5].

End Inputs.

(** * Properties *)

(** Closed decidable facts are settled by evaluation. *)
Ltac by_evaluation :=
  match goal with
  | |- ?P => apply (bool_decide_unpack P); vm_compute; exact I
  end.

(** ** Loops over index ranges *)

Section Loops.
Context {A S : Type}.

Lemma foldl_ext_in {I : Type} (f g : S → I → S) (l : list I) (s : S) :
  (∀ s i, i ∈ l → f s i = g s i) → foldl f s l = foldl g s l.
Proof.
  revert s. induction l as [|i l IH]; intros s Hfg; [done|].
  simpl. rewrite (Hfg s i) by left.
  apply IH. intros s' j Hj. apply Hfg. by right.
Qed.

(** A loop that reads [l[i]] for [i] from [0] to [l.size()] folds over [l]. *)
Lemma foldl_seq_lookup `{!Inhabited A} (f : S → A → S) (l : list A) (s : S) :
  foldl (λ s i, f s (l !!! i)) s (seq 0 (length l)) = foldl f s l.
Proof.
  revert s. induction l as [|x l IH] using rev_ind; intros s; [done|].
  rewrite length_app, seq_app, !foldl_app. simpl.
  rewrite list_lookup_total_middle by done. f_equal.
  rewrite <- IH. apply foldl_ext_in. intros s' i Hi.
  apply elem_of_seq in Hi. by rewrite lookup_total_app_l by lia.
Qed.

(** The loop [for i < k: v[i] = g(i)] on a vector of at least [k] entries. *)
Lemma foldl_insert_seq (g : nat → A) (v : list A) (k : nat) :
  (k ≤ length v)%nat →
  foldl (λ v i, <[i := g i]> v) v (seq 0 k) = (g <$> seq 0 k) ++ drop k v.
Proof.
  induction k as [|k IH]; intros Hk; [by rewrite drop_0|].
  rewrite seq_S, foldl_app, fmap_app, IH by lia. simpl.
  destruct (lookup_lt_is_Some_2 v k) as [x Hx]; [lia|].
  rewrite (drop_S v x k Hx), <- app_assoc. simpl.
  rewrite insert_app_r_alt; rewrite length_fmap, length_seq; [|lia].
  by rewrite Nat.sub_diag.
Qed.

Lemma fmap_seq_lookup `{!Inhabited A} {B : Type} (g : A → B) (l : list A) :
  (λ i, g (l !!! i)) <$> seq 0 (length l) = g <$> l.
Proof.
  apply list_eq. intros i. rewrite !list_lookup_fmap.
  destruct (decide (i < length l)%nat) as [Hi|Hi].
  - rewrite lookup_seq_lt by done. simpl.
    destruct (lookup_lt_is_Some_2 l i Hi) as [x Hx].
    by rewrite Hx, (list_lookup_total_correct l i x Hx).
  - rewrite lookup_seq_ge, lookup_ge_None_2 by lia. done.
Qed.

End Loops.

(** ** Coordinates of points *)

Section Coordinates.
Context {spacedim : nat}.
Implicit Types (p q r : Point spacedim) (d : fin spacedim) (w : Qc).

Lemma lookup_zero d : (Point.zero : Point spacedim) !!! d = 0.
Proof. apply vlookup_replicate. Qed.

Lemma lookup_add p q d : Point.add p q !!! d = p !!! d + q !!! d.
Proof. apply vlookup_zip_with. Qed.

Lemma lookup_scale p w d : Point.scale p w !!! d = p !!! d * w.
Proof. unfold Point.scale. by rewrite vlookup_map. Qed.

Lemma lookup_weighted p w d : Spec.weighted w p !!! d = w * p !!! d.
Proof. unfold Spec.weighted. by rewrite vlookup_map. Qed.

Lemma add_zero_r p : Point.add p Point.zero = p.
Proof.
  apply vec_eq. intros d. rewrite lookup_add, lookup_zero. ring.
Qed.

Lemma add_zero_l p : Point.add Point.zero p = p.
Proof.
  apply vec_eq. intros d. rewrite lookup_add, lookup_zero. ring.
Qed.

Lemma add_assoc p q r :
  Point.add (Point.add p q) r = Point.add p (Point.add q r).
Proof.
  apply vec_eq. intros d. rewrite !lookup_add. ring.
Qed.

Lemma scale_weighted p w : Point.scale p w = Spec.weighted w p.
Proof.
  apply vec_eq. intros d. rewrite lookup_scale, lookup_weighted. ring.
Qed.


(** The axes are enumerated once each. *)
Lemma axes_NoDup : NoDup (Point.axes : list (fin spacedim)).
Proof. apply NoDup_enum. Qed.

Lemma elem_of_axes d : d ∈ (Point.axes : list (fin spacedim)).
Proof. apply elem_of_enum. Qed.

Lemma lookup_update_axis c f v d d' :
  Steps.update_axis c f v d !!! d' =
  if decide (d = d') then (if c d then f d (v !!! d) else v !!! d)
  else v !!! d'.
Proof.
  unfold Steps.update_axis. destruct (decide (d = d')) as [<-|Hne].
  - destruct (c d); [apply vlookup_insert|done].
  - destruct (c d); [by apply vlookup_insert_ne|done].
Qed.

Lemma lookup_foldl_update c f (l : list (fin spacedim)) v d :
  NoDup l →
  foldl (Steps.update_axis c f) v l !!! d =
  if decide (d ∈ l) then (if c d then f d (v !!! d) else v !!! d)
  else v !!! d.
Proof.
  revert v. induction l as [|d0 l IH]; intros v Hl.
  - by destruct (decide (d ∈ [])) as [?%elem_of_nil|].
  - apply NoDup_cons in Hl as [Hd0 Hl]. simpl. rewrite (IH _ Hl).
    rewrite !lookup_update_axis.
    destruct (decide (d0 = d)) as [->|Hne].
    + destruct (decide (d ∈ l)); [done|].
      by destruct (decide (d ∈ d :: l)) as [|[]]; [|left].
    + destruct (decide (d ∈ l)) as [Hin|Hout].
      * by destruct (decide (d ∈ d0 :: l)) as [|[]]; [|right].
      * destruct (decide (d ∈ d0 :: l)) as [[->|?]%elem_of_cons|]; done.
Qed.

Lemma lookup_foldl_axes c f v d :
  foldl (Steps.update_axis c f) v Point.axes !!! d =
  if c d then f d (v !!! d) else v !!! d.
Proof.
  rewrite lookup_foldl_update by apply axes_NoDup.
  by rewrite decide_True by apply elem_of_axes.
Qed.

(** Coordinates of an accumulated sum. *)
Lemma lookup_foldl_add {I : Type} (g : I → Point spacedim) (l : list I) p d :
  foldl (λ p i, Point.add p (g i)) p l !!! d =
  foldl (λ x i, x + g i !!! d) (p !!! d) l.
Proof.
  revert p. induction l as [|i l IH]; intros p; [done|].
  simpl. by rewrite IH, lookup_add.
Qed.

End Coordinates.

(** ** The weighted sum *)

Section WeightedSum.
Context {spacedim : nat}.
Implicit Types (p : Point spacedim) (ps : list (Point spacedim)).
Implicit Types (ws : list Qc).

Lemma foldl_plus_total ws (s : Qc) : foldl Qcplus s ws = s + Spec.total ws.
Proof.
  revert s. induction ws as [|w ws IH]; intros s; simpl.
  - ring.
  - rewrite IH. unfold Spec.total. simpl. ring.
Qed.

(** The sum that the [DEBUG] block computes is the total of the weights. *)
Lemma debug_sum_total ws :
  foldl (λ sum i, sum + ws !!! i) 0 (seq 0 (length ws)) = Spec.total ws.
Proof.
  rewrite (foldl_seq_lookup Qcplus), foldl_plus_total. ring.
Qed.

Lemma check_weights_ok (DEBUG : bool) ws :
  (DEBUG = true → Qcabs (Spec.total ws - 1) < Q2Qc 1e-10) →
  Manifold.check_weights DEBUG ws = Ok ().
Proof.
  intros Hsum. unfold Manifold.check_weights. destruct DEBUG; [|done].
  rewrite debug_sum_total. unfold Assert, ltb, std.abs.
  by rewrite bool_decide_true by (by apply Hsum).
Qed.

Lemma accumulate_zip ps ws p :
  foldl (λ p sw, Point.add p (Point.scale sw.1 sw.2)) p (zip ps ws) =
  Point.add p (Spec.weighted_sum ps ws).
Proof.
  revert ws p. induction ps as [|s ps IH]; intros [|w ws] p; simpl;
    try by rewrite add_zero_r.
  by rewrite IH, add_assoc, scale_weighted.
Qed.

Lemma lookup_total_zip ps ws (i : nat) :
  (i < length ps)%nat → (i < length ws)%nat →
  zip ps ws !!! i = (ps !!! i, ws !!! i).
Proof.
  intros [s Hs]%lookup_lt_is_Some_2 [w Hw]%lookup_lt_is_Some_2.
  apply list_lookup_total_correct.
  rewrite lookup_zip_with, Hs. simpl. rewrite Hw. simpl.
  by rewrite (list_lookup_total_correct _ _ _ Hs),
    (list_lookup_total_correct _ _ _ Hw).
Qed.

(** The accumulation loop of [get_new_point], started at [p]. *)
Lemma accumulate_index ps ws p :
  length ps = length ws →
  foldl (λ p i, Point.add p (Point.scale (ps !!! i) (ws !!! i))) p
    (seq 0 (length ps)) =
  Point.add p (Spec.weighted_sum ps ws).
Proof.
  intros Hlen. rewrite <- accumulate_zip.
  rewrite <- (foldl_seq_lookup _ (zip ps ws)).
  rewrite length_zip_with, <- Hlen, Nat.min_id.
  apply foldl_ext_in. intros q i [_ Hi]%elem_of_seq.
  rewrite lookup_total_zip by lia. done.
Qed.


End WeightedSum.

(** ** Comparisons of scalars *)

Section Scalars.
Implicit Types a b L x : Qc.

Lemma ltb_lt a b : ltb a b = true ↔ a < b.
Proof. unfold ltb. apply bool_decide_eq_true. Qed.

Lemma ltb_ge a b : ltb a b = false ↔ b ≤ a.
Proof.
  unfold ltb. rewrite bool_decide_eq_false. symmetry. apply Qcle_ngt.
Qed.



Lemma half_positive L : 0 < L → 0 < L / Q2Qc 2.0.
Proof.
  intros HL. unfold Qcdiv. apply Qcmult_pos_pos; [done|]. by_evaluation.
Qed.

Lemma below_with_tolerance x L : x < L → x < L + Q2Qc 1e-10.
Proof.
  intros Hx. apply Qclt_le_trans with L; [done|].
  rewrite <- (Qcplus_0_r L) at 1. apply Qcplus_le_mono_l. by_evaluation.
Qed.

End Scalars.

(** ** Running [FlatManifold::get_new_point] *)

Section FlatRun.
Context {spacedim : nat}.
Implicit Types (periodicity minP p P : Point spacedim) (d : fin spacedim).
Implicit Types (sp : list (Point spacedim)) (quad : Quadrature spacedim).

Lemma zero_literal : Q2Qc 0.0 = 0.
Proof. by_evaluation. Qed.

Lemma for_each_ok {I S : Type} (l : list I) (body : I → S → result S)
    (g : I → S → S) (s : S) :
  (∀ i s, i ∈ l → body i s = Ok (g i s)) →
  for_each l body s = Ok (foldl (λ s i, g i s) s l).
Proof.
  revert s. induction l as [|i l IH]; intros s Hbody; [done|].
  simpl. rewrite (Hbody i s) by left. simpl.
  apply IH. intros j s' Hj. apply Hbody. by right.
Qed.

Lemma bound_step_ok periodicity sp (i : nat) d minP :
  Steps.axis_ok periodicity (sp !!! i) d = true →
  FlatManifold.bound_step periodicity sp i d minP =
  Ok (vinsert d (std.min (minP !!! d) ((sp !!! i) !!! d)) minP).
Proof.
  unfold Steps.axis_ok, FlatManifold.bound_step. intros Hok.
  destruct (ltb 0 (periodicity !!! d)); [|done]. by rewrite Hok.
Qed.

Lemma bound_step_raise periodicity sp (i : nat) d minP :
  Steps.axis_ok periodicity (sp !!! i) d = false →
  FlatManifold.bound_step periodicity sp i d minP =
  Raise (ExcMessage
    "One of the points does not lye into the periodic box! Bailing out.").
Proof.
  unfold Steps.axis_ok, FlatManifold.bound_step. intros Hok.
  destruct (ltb 0 (periodicity !!! d)); [|done]. by rewrite Hok.
Qed.

(** One pass over the axes lowers [minP] to the sample, componentwise. *)
Lemma lower_sample periodicity sp (i : nat) minP :
  (∀ d, Steps.axis_ok periodicity (sp !!! i) d = true) →
  for_each Point.axes (FlatManifold.bound_step periodicity sp i) minP =
  Ok (vzip_with std.min minP (sp !!! i)).
Proof.
  intros Hok.
  rewrite (for_each_ok _ _
    (λ d m, vinsert d (std.min (m !!! d) ((sp !!! i) !!! d)) m))
    by (intros; by apply bound_step_ok).
  f_equal. apply vec_eq. intros d.
  change (foldl (Steps.update_axis (λ _, true)
            (λ d x, std.min x ((sp !!! i) !!! d))) minP Point.axes !!! d =
          vzip_with std.min minP (sp !!! i) !!! d).
  by rewrite lookup_foldl_axes, vlookup_zip_with.
Qed.

Lemma axis_ok_below periodicity quad (i : nat) d :
  Spec.below_period periodicity quad →
  (i < length (get_points quad))%nat →
  Steps.axis_ok periodicity (get_points quad !!! i) d = true.
Proof.
  intros Hbelow Hi. unfold Steps.axis_ok.
  destruct (ltb 0 (periodicity !!! d)) eqn:Hper; [|done].
  apply ltb_lt, Hbelow; [|by apply ltb_lt].
  by apply list_elem_of_lookup_total_2.
Qed.

(** The first loop succeeds on samples below the periods. *)
Lemma bounds_loop_ok periodicity quad :
  Spec.below_period periodicity quad →
  for_each (seq 0 (length (get_points quad)))
    (λ i minP,
       for_each Point.axes
         (FlatManifold.bound_step periodicity (get_points quad) i) minP)
    periodicity =
  Ok (Steps.lowest periodicity (get_points quad)).
Proof.
  intros Hbelow.
  rewrite (for_each_ok _ _
    (λ i m, vzip_with std.min m (get_points quad !!! i))).
  - f_equal. apply (foldl_seq_lookup (vzip_with std.min)).
  - intros i m [_ Hi]%elem_of_seq. apply lower_sample. intros d.
    apply axis_ok_below; [done|lia].
Qed.

(** When no assertion fails the result is the candidate of [Steps]. *)
Lemma flat_run (DEBUG : bool) periodicity quad :
  (DEBUG = true → Spec.normalised quad) →
  Spec.below_period periodicity quad →
  FlatManifold.get_new_point DEBUG periodicity quad =
  Ok (Steps.candidate periodicity quad).
Proof.
  intros Hsum Hbelow. unfold FlatManifold.get_new_point.
  rewrite check_weights_ok by done. simpl.
  unfold Steps.candidate. destruct (Point.norm_nonzero periodicity).
  - by rewrite bounds_loop_ok.
  - done.
Qed.

End FlatRun.

(** ** Coordinates of the candidate *)

Section FlatCoordinates.
Context {spacedim : nat}.
Implicit Types (periodicity minP p P : Point spacedim) (d : fin spacedim).
Implicit Types (sp : list (Point spacedim)) (quad : Quadrature spacedim).

Lemma lookup_shift periodicity (check_period : bool) minP sp (i : nat) d :
  FlatManifold.shift periodicity check_period minP sp i !!! d =
  if check_period && ltb 0 (periodicity !!! d)
  then (if ltb (periodicity !!! d / Q2Qc 2.0)
               ((sp !!! i) !!! d - minP !!! d)
        then - periodicity !!! d else 0)
  else 0.
Proof.
  unfold FlatManifold.shift. destruct check_period; simpl.
  - etrans.
    { exact (lookup_foldl_axes (λ d, ltb 0 (periodicity !!! d))
               (λ d _, if ltb (periodicity !!! d / Q2Qc 2.0)
                              ((sp !!! i) !!! d - minP !!! d)
                       then - periodicity !!! d else Q2Qc 0.0)
               Point.zero d). }
    by rewrite lookup_zero, zero_literal.
  - apply lookup_zero.
Qed.

(** No shift on an axis that is not periodic. *)
Lemma lookup_shift_flat periodicity (check_period : bool) minP sp (i : nat) d :
  periodicity !!! d = 0 →
  FlatManifold.shift periodicity check_period minP sp i !!! d = 0.
Proof.
  intros Hd. rewrite lookup_shift, Hd.
  replace (ltb 0 0) with false by (symmetry; by apply ltb_ge).
  by rewrite andb_false_r.
Qed.

Lemma lookup_wrapped periodicity p d :
  Steps.wrapped periodicity p !!! d =
  if ltb 0 (periodicity !!! d)
  then (if ltb (p !!! d) 0 then p !!! d + periodicity !!! d else p !!! d)
  else p !!! d.
Proof. unfold Steps.wrapped. by rewrite lookup_foldl_axes. Qed.

Lemma lookup_accumulated periodicity (check_period : bool) minP quad d :
  Steps.accumulated periodicity check_period minP quad !!! d =
  foldl (λ x i,
           x + ((get_points quad !!! i) !!! d +
                FlatManifold.shift periodicity check_period minP
                  (get_points quad) i !!! d) * get_weights quad !!! i)
        0 (seq 0 (length (get_points quad))).
Proof.
  unfold Steps.accumulated.
  rewrite (lookup_foldl_add (λ i, Point.scale _ _)), lookup_zero.
  apply foldl_ext_in. intros x i _. by rewrite lookup_scale, lookup_add.
Qed.

Lemma lookup_weighted_centroid quad d :
  Spec.aligned quad →
  Spec.weighted_centroid quad !!! d =
  foldl (λ x i, x + (get_points quad !!! i) !!! d * get_weights quad !!! i)
        0 (seq 0 (length (get_points quad))).
Proof.
  intros Hlen. unfold Spec.weighted_centroid.
  rewrite <- (add_zero_l (Spec.weighted_sum _ _)).
  rewrite <- accumulate_index by done.
  rewrite (lookup_foldl_add (λ i, Point.scale _ _)), lookup_zero.
  apply foldl_ext_in. intros x i _. by rewrite lookup_scale.
Qed.

(** On an axis that is not periodic the accumulated coordinate is the plain
    weighted sum. *)
Lemma lookup_accumulated_flat periodicity (check_period : bool) minP quad d :
  Spec.aligned quad → periodicity !!! d = 0 →
  Steps.accumulated periodicity check_period minP quad !!! d =
  Spec.weighted_centroid quad !!! d.
Proof.
  intros Hlen Hd. rewrite lookup_accumulated, lookup_weighted_centroid by done.
  apply foldl_ext_in. intros x i _. rewrite lookup_shift_flat by done. ring.
Qed.

Lemma lookup_candidate_flat periodicity quad d :
  Spec.aligned quad → periodicity !!! d = 0 →
  Steps.candidate periodicity quad !!! d = Spec.weighted_centroid quad !!! d.
Proof.
  intros Hlen Hd. unfold Steps.candidate.
  destruct (Point.norm_nonzero periodicity).
  - rewrite lookup_wrapped, Hd.
    replace (ltb 0 0) with false by (symmetry; by apply ltb_ge).
    by apply lookup_accumulated_flat.
  - by apply lookup_accumulated_flat.
Qed.




End FlatCoordinates.

(** ** Hypotheses on concrete quadratures *)

Section Checks.
Context {spacedim : nat}.

Lemma below_period_Forall (periodicity : Point spacedim)
    (quad : Quadrature spacedim) :
  Forall (λ s : Point spacedim,
            ∀ d, 0 < periodicity !!! d →
                 s !!! d < periodicity !!! d + Q2Qc 1e-10)
         (get_points quad) →
  Spec.below_period periodicity quad.
Proof.
  intros Hall s d Hs. revert d. by apply (proj1 (Forall_forall _ _) Hall).
Qed.




End Checks.

(** ** The bound that is asserted *)

Section UpperBound.
Context {spacedim : nat}.
Implicit Types (periodicity minP p : Point spacedim) (d : fin spacedim).

Local Abbreviation out_of_box :=
  (ExcMessage
     "One of the points does not lye into the periodic box! Bailing out.").

Lemma square_nonneg (x : Qc) : 0 ≤ x * x.
Proof.
  destruct (Qclt_le_dec x 0) as [Hneg|Hpos].
  - replace (x * x) with ((- x) * (- x)) by ring.
    apply Qclt_minus_iff in Hneg. rewrite Qcplus_0_l in Hneg.
    apply Qcmult_nonneg_nonneg; by apply Qclt_le_weak.
  - by apply Qcmult_nonneg_nonneg.
Qed.

Lemma foldl_squares_ge p (l : list (fin spacedim)) (s : Qc) :
  s ≤ foldl (λ s d, s + p !!! d * p !!! d) s l.
Proof.
  revert s. induction l as [|d l IH]; intros s; simpl; [apply Qcle_refl|].
  eapply Qcle_trans; [|apply IH].
  rewrite <- (Qcplus_0_r s) at 1. apply Qcplus_le_mono_l, square_nonneg.
Qed.

Lemma foldl_squares_pos p (l : list (fin spacedim)) (s : Qc) d :
  d ∈ l → 0 < p !!! d → s < foldl (λ s d, s + p !!! d * p !!! d) s l.
Proof.
  intros Hd Hpos. revert s.
  induction l as [|d' l IH]; intros s; [by apply elem_of_nil in Hd|].
  simpl. apply elem_of_cons in Hd as [<-|Hd].
  - eapply Qclt_le_trans; [|apply foldl_squares_ge].
    rewrite <- (Qcplus_0_r s) at 1. apply Qcplus_lt_mono_l.
    by apply Qcmult_pos_pos.
  - eapply Qcle_lt_trans; [|by apply IH].
    rewrite <- (Qcplus_0_r s) at 1. apply Qcplus_le_mono_l, square_nonneg.
Qed.

(** A periodicity with a positive entry has a nonzero norm. *)
Lemma norm_nonzero_periodic periodicity d :
  0 < periodicity !!! d → Point.norm_nonzero periodicity = true.
Proof.
  intros Hpos. unfold Point.norm_nonzero, Point.norm_square.
  rewrite bool_decide_false; [done|].
  intros Hzero.
  pose proof (foldl_squares_pos periodicity Point.axes 0 d
                (elem_of_axes d) Hpos) as Hlt.
  rewrite Hzero in Hlt. by apply Qclt_not_eq in Hlt.
Qed.

Lemma for_each_cases {I S : Type} (l : list I) (body : I → S → result S)
    (e : Exc) (s : S) :
  (∀ j s, body j s = Raise e ∨ ∃ s', body j s = Ok s') →
  for_each l body s = Raise e ∨ ∃ s', for_each l body s = Ok s'.
Proof.
  intros Hbody. revert s. induction l as [|j l IH]; intros s; simpl.
  - right. by exists s.
  - destruct (Hbody j s) as [->|[s' ->]]; simpl; [by left|apply IH].
Qed.

Lemma for_each_raise_some {I S : Type} (l : list I)
    (body : I → S → result S) (e : Exc) (i : I) (s : S) :
  (∀ j s, body j s = Raise e ∨ ∃ s', body j s = Ok s') →
  i ∈ l → (∀ s, body i s = Raise e) →
  for_each l body s = Raise e.
Proof.
  intros Hbody Hi Hraise. revert s.
  induction l as [|j l IH]; intros s; [by apply elem_of_nil in Hi|].
  simpl. apply elem_of_cons in Hi as [<-|Hi].
  - by rewrite Hraise.
  - destruct (Hbody j s) as [->|[s' ->]]; simpl; [done|by apply IH].
Qed.

Lemma bound_step_cases periodicity sp (i : nat) d minP :
  FlatManifold.bound_step periodicity sp i d minP =
    Raise out_of_box ∨
  ∃ minP', FlatManifold.bound_step periodicity sp i d minP = Ok minP'.
Proof.
  destruct (Steps.axis_ok periodicity (sp !!! i) d) eqn:Hok.
  - right. eexists. by apply bound_step_ok.
  - left. by apply bound_step_raise.
Qed.

(** X8. A sample that reaches the period plus the tolerance on a periodic
    axis is rejected: when the weight check is passed and some sample has a
    coordinate of at least [L + 1e-10] on an axis of positive period [L],
    [FlatManifold::get_new_point] raises the failure of the periodic box. *)
Lemma sample_above_period_rejected (DEBUG : bool) periodicity
    (quad : Quadrature spacedim) (i : nat) d :
  (DEBUG = true → Spec.normalised quad) →
  (i < length (get_points quad))%nat →
  0 < periodicity !!! d →
  periodicity !!! d + Q2Qc 1e-10 ≤ (get_points quad !!! i) !!! d →
  FlatManifold.get_new_point DEBUG periodicity quad =
  Raise out_of_box.
Proof.
  intros Hsum Hi Hper Habove. unfold FlatManifold.get_new_point.
  rewrite check_weights_ok by done. simpl.
  rewrite (norm_nonzero_periodic periodicity d Hper).
  rewrite (for_each_raise_some _ _ out_of_box i); [done| |apply elem_of_seq; lia|].
  - intros j m. apply for_each_cases. intros. apply bound_step_cases.
  - intros m. apply (for_each_raise_some _ _ out_of_box d).
    + intros. apply bound_step_cases.
    + apply elem_of_axes.
    + intros m'. apply bound_step_raise. unfold Steps.axis_ok.
      rewrite (proj2 (ltb_lt _ _) Hper). by apply ltb_ge.
Qed.

(** The sample 1.5 on the line of period 1.0 is rejected. *)
Example above_box_rejected (DEBUG : bool) :
  FlatManifold.get_new_point DEBUG Inputs.circle Inputs.above_box =
  Raise out_of_box.
Proof. destruct DEBUG; by_evaluation. Qed.

End UpperBound.

(** ** The model at work *)

(** The base class cannot project. *)
Example base_project_to_manifold_raises :
  Manifold.project_to_manifold [] (Point.zero : Point 3) =
  Raise ExcPureFunctionCalled.
Proof. reflexivity. Qed.

(** On a manifold of dimension 2 a cell is a quad. *)
Lemma cell_is_quad {spacedim : nat} {Accessor : Type}
    `{!TriaAccessor spacedim Accessor}
    (this_get_new_point : Quadrature spacedim → result (Point spacedim))
    (cell : Accessor) :
  Manifold.get_new_point_on_cell 2 this_get_new_point cell =
  Manifold.get_new_point_on_quad 2 this_get_new_point cell.
Proof. reflexivity. Qed.

(** ** The claims *)

(** C1. For every quadrature (sample points and weights aligned, and, where
    the [DEBUG] check is compiled in, weights that sum to 1 within 1e-10),
    [Manifold::get_new_point] returns [project_to_manifold(samples, c)],
    where [c] is the weighted centroid of the samples and [samples] is the
    sample sequence of the quadrature as it was given. *)
Theorem C1_get_new_point_projects_centroid {spacedim : nat} (DEBUG : bool)
    (this_project_to_manifold :
       list (Point spacedim) → Point spacedim → result (Point spacedim))
    (quad : Quadrature spacedim) :
  Spec.aligned quad →
  (DEBUG = true → Spec.normalised quad) →
  Manifold.get_new_point DEBUG this_project_to_manifold quad =
  this_project_to_manifold (get_points quad) (Spec.weighted_centroid quad).
Proof.
  intros Hlen Hsum. unfold Manifold.get_new_point.
  rewrite check_weights_ok by done. simpl.
  by rewrite accumulate_index, add_zero_l.
Qed.

Lemma C1_witness :
  Spec.aligned Inputs.across_seam ∧
  (true = true → Spec.normalised Inputs.across_seam) ∧
  Manifold.get_new_point true FlatManifold.project_to_manifold
    Inputs.across_seam =
  FlatManifold.project_to_manifold (get_points Inputs.across_seam)
    (Spec.weighted_centroid Inputs.across_seam).
Proof.
  assert (Hlen : Spec.aligned Inputs.across_seam) by reflexivity.
  assert (Hsum : true = true → Spec.normalised Inputs.across_seam).
  { intros _. unfold Spec.normalised. by_evaluation. }
  split; [exact Hlen|]. split; [exact Hsum|].
  exact (C1_get_new_point_projects_centroid true
           FlatManifold.project_to_manifold Inputs.across_seam Hlen Hsum).
Defined.

(** C2, as stated, fails in binary64: on the line of period 1.0 the two
    samples 0.1 and 0.9 of weight 0.5 each do not give the point 0.0.  The
    doubles nearest to 0.1 and 0.9 leave 2^-56 after the upper sample is moved
    down by the period. *)
Lemma C2_counterexample :
  Binary64.FlatManifold.get_new_point true Binary64.circle
    Binary64.across_seam ≠ Ok [# 0.0%float] ∧
  Binary64.FlatManifold.get_new_point false Binary64.circle
    Binary64.across_seam ≠ Ok [# 0.0%float].
Proof.
  split; intros H;
    apply (f_equal (λ r, (Binary64.first_coordinate r =? 0)%float)) in H;
    vm_compute in H; discriminate.
Qed.

(** C2, amended.  On the line of period 1.0, [FlatManifold::get_new_point]
    applied to the two samples 0.1 and 0.9 of weight 0.5 each returns the
    point 2^-56, about 1.39e-17: the mean across the seam, 0.0, up to the
    rounding of the two literals.  It is within 1e-16 of 0.0 and nowhere near
    0.5, with the weight check compiled in or not. *)
Theorem C2_mean_across_seam_rounded (DEBUG : bool) :
  Binary64.FlatManifold.get_new_point DEBUG Binary64.circle
    Binary64.across_seam = Ok [# 0x1p-56%float] ∧
  Binary64.near 1e-16 [# 0x1p-56%float] [# 0.0%float] = true ∧
  Binary64.near 0.4 [# 0x1p-56%float] [# 0.5%float] = false.
Proof.
  destruct DEBUG; repeat split; vm_compute; reflexivity.
Qed.

(** C3, at the failing input.  On the line of period 1.0 the sample -5.0 lies
    outside the periodic box, yet [FlatManifold::get_new_point] raises
    nothing: only the upper bound is asserted, and the point -4.0 is
    returned. *)
Theorem C3_sample_below_box_accepted (DEBUG : bool) :
  FlatManifold.get_new_point DEBUG Inputs.circle Inputs.below_box =
  Ok [# Q2Qc (-4.0)].
Proof. destruct DEBUG; by_evaluation. Qed.

(** C4. The hex builder produces 26 aligned sample/weight pairs: the 8
    vertices with weight 1/128, then the 12 edge samples with weight 7/192
    (the child vertex of a refined edge, else the edge center), then the 6
    face samples with weight 1/12 (the interior vertex of the isotropic
    children of a refined face, else the face center); the weights sum to
    exactly 1. *)
Theorem C4_hex_default_quadrature {spacedim : nat} {Accessor : Type}
    `{!TriaAccessor spacedim Accessor} (obj : Accessor) :
  get_points (Manifolds.get_default_quadrature_hex obj) =
    (vertex obj <$> seq 0 8) ++
    (Spec.edge_sample obj <$> seq 0 12) ++
    (Spec.face_sample obj <$> seq 0 6) ∧
  get_weights (Manifolds.get_default_quadrature_hex obj) =
    replicate 8 (1 / Q2Qc 128) ++
    replicate 12 (Q2Qc 7 / Q2Qc 192) ++
    replicate 6 (1 / Q2Qc 12) ∧
  length (get_points (Manifolds.get_default_quadrature_hex obj)) = 26%nat ∧
  length (get_weights (Manifolds.get_default_quadrature_hex obj)) = 26%nat ∧
  Spec.total (get_weights (Manifolds.get_default_quadrature_hex obj)) = 1.
Proof.
  assert (Hw : get_weights (Manifolds.get_default_quadrature_hex obj) =
    replicate 8 (1 / Q2Qc 128) ++ replicate 12 (Q2Qc 7 / Q2Qc 192) ++
    replicate 6 (1 / Q2Qc 12)).
  { reflexivity. }
  split; [reflexivity|]. split; [exact Hw|].
  split; [reflexivity|]. split; [reflexivity|].
  rewrite Hw. by_evaluation.
Qed.

(** The template builder passes its dimension check. *)
Lemma generic_builder_dimension {spacedim : nat} :
  AssertDimension spacedim (@Manifolds.space_dimension spacedim) = Ok ().
Proof.
  unfold AssertDimension, Manifolds.space_dimension, Assert.
  by rewrite bool_decide_true.
Qed.

(** C5. The template builder produces, for a line, the two vertices with
    weight 0.5 each and, for a quad, the 4 vertices followed by the 4 edge
    samples, with weights 1/8 throughout in plain mode and 1/16 on the
    vertices, 3/16 on the edge samples in Laplace mode; in each case the
    weights sum to 1 (exactly, hence within 1e-10). *)
Theorem C5_generic_default_quadrature {spacedim : nat} {Accessor : Type}
    `{!TriaAccessor spacedim Accessor} (obj : Accessor) (with_laplace : bool) :
  let line_weights := [Q2Qc 0.5; Q2Qc 0.5] in
  let plain_weights := replicate 8 (1 / Q2Qc 8) in
  let laplace_weights :=
    replicate 4 (1 / Q2Qc 16) ++ replicate 4 (Q2Qc 3 / Q2Qc 16) in
  let quad_points :=
    (vertex obj <$> seq 0 4) ++ (Spec.edge_sample obj <$> seq 0 4) in
  Manifolds.get_default_quadrature 1 obj with_laplace =
    Ok (mkQuadrature [vertex obj 0; vertex obj 1] line_weights) ∧
  Manifolds.get_default_quadrature 2 obj false =
    Ok (mkQuadrature quad_points plain_weights) ∧
  Manifolds.get_default_quadrature 2 obj true =
    Ok (mkQuadrature quad_points laplace_weights) ∧
  (Spec.total line_weights = 1 ∧
   Spec.total plain_weights = 1 ∧
   Spec.total laplace_weights = 1) ∧
  (Qcabs (Spec.total line_weights - 1) < Q2Qc 1e-10 ∧
   Qcabs (Spec.total plain_weights - 1) < Q2Qc 1e-10 ∧
   Qcabs (Spec.total laplace_weights - 1) < Q2Qc 1e-10).
Proof.
  intros line_weights plain_weights laplace_weights quad_points.
  unfold Manifolds.get_default_quadrature.
  rewrite generic_builder_dimension. simpl.
  split; [reflexivity|]. split; [reflexivity|]. split; [reflexivity|].
  split; (split; [|split]); by_evaluation.
Qed.

(** C6. [ManifoldChart::get_new_point] is [push_forward] applied to the
    result of the sub-manifold's [get_new_point] on the chart-space
    quadrature whose points are the [pull_back]s of the sample points and
    whose weights are the weights of the given quadrature. *)
Theorem C6_chart_get_new_point {spacedim chartdim : nat} (DEBUG : bool)
    (pull_back : Point spacedim → Point chartdim)
    (push_forward : Point chartdim → Point spacedim)
    (periodicity : Point chartdim) (quad : Quadrature spacedim) :
  ManifoldChart.get_new_point DEBUG pull_back push_forward periodicity quad =
  push_forward <$>
    FlatManifold.get_new_point DEBUG periodicity
      (mkQuadrature (pull_back <$> get_points quad) (get_weights quad)).
Proof.
  unfold ManifoldChart.get_new_point.
  rewrite (foldl_insert_seq (λ i, pull_back (get_points quad !!! i)))
    by (by rewrite length_replicate).
  rewrite drop_ge, app_nil_r by (by rewrite length_replicate).
  rewrite fmap_seq_lookup.
  by destruct (FlatManifold.get_new_point _ _ _).
Qed.




(** C8, as stated, fails on the unit cube: the template builder run at
    structure dimension 3 raises the internal error, it does not produce the
    quadrature of the hex overload. *)
Lemma C8_counterexample :
  Manifolds.get_default_quadrature 3 Mesh.unit_cube false =
    Raise ExcInternalError ∧
  Manifolds.get_default_quadrature 3 Mesh.unit_cube false ≠
    Ok (Manifolds.get_default_quadrature_hex Mesh.unit_cube).
Proof. split; [reflexivity|discriminate]. Qed.

(** C8, amended.  The template builder has no branch for dimension 3: on
    every entity and in both weighting modes it raises the internal error
    there.  Hexahedra are served by the hex overload alone, which is the one
    [Manifold<3,3>::get_new_point_on_hex] hands to [get_new_point]. *)
Theorem C8_hex_only_by_overload {Accessor : Type}
    `{!TriaAccessor 3 Accessor} (obj : Accessor) (with_laplace : bool)
    (this_get_new_point : Quadrature 3 → result (Point 3)) :
  Manifolds.get_default_quadrature 3 obj with_laplace =
    Raise ExcInternalError ∧
  Manifold.get_new_point_on_hex 3 this_get_new_point obj =
    this_get_new_point (Manifolds.get_default_quadrature_hex obj).
Proof. split; reflexivity. Qed.

(** C9. A query that the topological dimension of the manifold makes
    meaningless is a contract violation: [get_new_point_on_face] and
    [get_new_point_on_quad] on a manifold of dimension 1 (in a space of
    dimension 1, 2 or 3) and [get_new_point_on_hex] on a manifold of any
    dimension other than 3 raise [ExcImpossibleInDim]; no point is
    returned. *)
Theorem C9_undefined_for_topology {spacedim : nat} {Accessor : Type}
    `{!TriaAccessor spacedim Accessor} (dim : nat)
    (this_get_new_point : Quadrature spacedim → result (Point spacedim))
    (entity : Accessor) :
  (1 ≤ spacedim ≤ 3)%nat →
  dim ≠ 3%nat →
  Manifold.get_new_point_on_face 1 this_get_new_point entity =
    Raise (ExcImpossibleInDim 1) ∧
  Manifold.get_new_point_on_quad 1 this_get_new_point entity =
    Raise (ExcImpossibleInDim 1) ∧
  Manifold.get_new_point_on_hex dim this_get_new_point entity =
    Raise (ExcImpossibleInDim dim).
Proof.
  intros Hspace Hdim.
  unfold Manifold.get_new_point_on_face, Manifold.get_new_point_on_quad,
    Manifold.get_new_point_on_hex, Manifold.specialised_1.
  rewrite bool_decide_true by done.
  rewrite bool_decide_false by (by intros [? _]).
  done.
Qed.

Lemma C9_witness :
  (1 ≤ 1 ≤ 3)%nat ∧ 2%nat ≠ 3%nat ∧
  Manifold.get_new_point_on_face 1
    (FlatManifold.get_new_point true Inputs.circle) Mesh.unit_interval =
    Raise (ExcImpossibleInDim 1) ∧
  Manifold.get_new_point_on_quad 1
    (FlatManifold.get_new_point true Inputs.circle) Mesh.unit_interval =
    Raise (ExcImpossibleInDim 1) ∧
  Manifold.get_new_point_on_hex 2
    (FlatManifold.get_new_point true Inputs.circle) Mesh.unit_interval =
    Raise (ExcImpossibleInDim 2).
Proof.
  assert (Hspace : (1 ≤ 1 ≤ 3)%nat) by lia.
  assert (Hdim : 2%nat ≠ 3%nat) by lia.
  split; [exact Hspace|]. split; [exact Hdim|].
  exact (C9_undefined_for_topology 2
           (FlatManifold.get_new_point true Inputs.circle)
           Mesh.unit_interval Hspace Hdim).
Defined.

(** C10. For a quadrature that passes the checks of
    [FlatManifold::get_new_point] (weights as a [DEBUG] build wants them,
    samples below the periods), a point is returned, and on every axis whose
    periodicity entry is 0 its coordinate is the plain weighted sum of the
    sample coordinates: neither the shift of wrapped samples nor the final
    renormalisation touches such an axis. *)
Theorem C10_flat_axis_plain_sum {spacedim : nat} (DEBUG : bool)
    (periodicity : Point spacedim) (quad : Quadrature spacedim)
    (d : fin spacedim) :
  Spec.aligned quad →
  (DEBUG = true → Spec.normalised quad) →
  Spec.below_period periodicity quad →
  periodicity !!! d = 0 →
  ∃ p : Point spacedim,
    FlatManifold.get_new_point DEBUG periodicity quad = Ok p ∧
    p !!! d = Spec.weighted_centroid quad !!! d.
Proof.
  intros Hlen Hsum Hbelow Hd.
  exists (Steps.candidate periodicity quad). split.
  - by apply flat_run.
  - by apply lookup_candidate_flat.
Qed.

Lemma C10_witness :
  Spec.aligned Inputs.seam_quadrature ∧
  (true = true → Spec.normalised Inputs.seam_quadrature) ∧
  Spec.below_period Inputs.cylinder Inputs.seam_quadrature ∧
  Inputs.cylinder !!! (1%fin : fin 2) = 0 ∧
  ∃ p : Point 2,
    FlatManifold.get_new_point true Inputs.cylinder Inputs.seam_quadrature =
      Ok p ∧
    p !!! (1%fin : fin 2) =
      Spec.weighted_centroid Inputs.seam_quadrature !!! (1%fin : fin 2).
Proof.
  assert (Hlen : Spec.aligned Inputs.seam_quadrature) by reflexivity.
  assert (Hsum : true = true → Spec.normalised Inputs.seam_quadrature).
  { intros _. unfold Spec.normalised. by_evaluation. }
  assert (Hbelow : Spec.below_period Inputs.cylinder Inputs.seam_quadrature).
  { apply below_period_Forall. by_evaluation. }
  assert (Hd : Inputs.cylinder !!! (1%fin : fin 2) = 0) by by_evaluation.
  repeat (split; [assumption|]).
  exact (C10_flat_axis_plain_sum true Inputs.cylinder Inputs.seam_quadrature
           1%fin Hlen Hsum Hbelow Hd).
Defined.

(** * Further properties of the code *)

(** ** The weight check of a [DEBUG] build *)

Section WeightCheck.
Context {spacedim : nat}.

Local Abbreviation bad_weights := (ExcMessage "Weights should sum to 1!").

Lemma one_is_literal : Q2Qc 1.0 = 1.
Proof. by_evaluation. Qed.

Lemma check_weights_raise (ws : list Qc) :
  ¬ Qcabs (Spec.total ws - 1) < Q2Qc 1e-10 →
  Manifold.check_weights true ws = Raise bad_weights.
Proof.
  intros Hsum. unfold Manifold.check_weights.
  rewrite debug_sum_total. unfold Assert, ltb, std.abs.
  by rewrite one_is_literal, bool_decide_false.
Qed.

Lemma check_weights_cases (DEBUG : bool) (ws : list Qc) :
  Manifold.check_weights DEBUG ws = Ok () ∨
  Manifold.check_weights DEBUG ws = Raise bad_weights.
Proof.
  destruct DEBUG; [|by left].
  destruct (decide (Qcabs (Spec.total ws - 1) < Q2Qc 1e-10)).
  - left. by apply check_weights_ok.
  - right. by apply check_weights_raise.
Qed.

End WeightCheck.

Local Abbreviation bad_weights := (ExcMessage "Weights should sum to 1!").

(** X1. In a [DEBUG] build a quadrature whose weights do not sum to 1 within
    1e-10 is refused by all three [get_new_point]s with the message about
    the weights, whatever the samples, the periodicity and the chart are. *)
Theorem debug_build_refuses_weights {spacedim chartdim : nat}
    (this_project_to_manifold :
       list (Point spacedim) → Point spacedim → result (Point spacedim))
    (periodicity : Point spacedim)
    (pull_back : Point spacedim → Point chartdim)
    (push_forward : Point chartdim → Point spacedim)
    (chart_periodicity : Point chartdim) (quad : Quadrature spacedim) :
  ¬ Spec.normalised quad →
  Manifold.get_new_point true this_project_to_manifold quad =
    Raise bad_weights ∧
  FlatManifold.get_new_point true periodicity quad = Raise bad_weights ∧
  ManifoldChart.get_new_point true pull_back push_forward chart_periodicity
    quad = Raise bad_weights.
Proof.
  intros Hsum.
  unfold ManifoldChart.get_new_point, FlatManifold.get_new_point,
    Manifold.get_new_point. cbn [get_weights get_points].
  by rewrite (check_weights_raise _ Hsum).
Qed.

Lemma debug_build_refuses_weights_witness :
  ¬ Spec.normalised Inputs.lopsided ∧
  Manifold.get_new_point true FlatManifold.project_to_manifold
    Inputs.lopsided = Raise bad_weights ∧
  FlatManifold.get_new_point true Inputs.circle Inputs.lopsided =
    Raise bad_weights ∧
  ManifoldChart.get_new_point true id id Inputs.circle Inputs.lopsided =
    Raise bad_weights.
Proof.
  assert (Hsum : ¬ Spec.normalised Inputs.lopsided).
  { unfold Spec.normalised. by_evaluation. }
  split; [exact Hsum|].
  exact (debug_build_refuses_weights FlatManifold.project_to_manifold
           Inputs.circle id id Inputs.circle Inputs.lopsided Hsum).
Defined.

(** ** Axes without period *)

Section Unperiodic.
Context {spacedim : nat}.
Implicit Types (periodicity minP p : Point spacedim) (d : fin spacedim).
Implicit Types (quad : Quadrature spacedim).

Lemma ltb_not_lt (a b : Qc) : ¬ a < b → ltb a b = false.
Proof. intros Hab. unfold ltb. by rewrite bool_decide_false. Qed.

(** [flat_run] from the outcome of the weight check. *)
Lemma flat_run_checked (DEBUG : bool) periodicity quad :
  Manifold.check_weights DEBUG (get_weights quad) = Ok () →
  Spec.below_period periodicity quad →
  FlatManifold.get_new_point DEBUG periodicity quad =
  Ok (Steps.candidate periodicity quad).
Proof.
  intros Hsum Hbelow. unfold FlatManifold.get_new_point.
  rewrite Hsum. simpl.
  unfold Steps.candidate. destruct (Point.norm_nonzero periodicity).
  - by rewrite bounds_loop_ok.
  - done.
Qed.

Lemma lookup_shift_unperiodic periodicity (check_period : bool) minP
    (sp : list (Point spacedim)) (i : nat) d :
  ¬ 0 < periodicity !!! d →
  FlatManifold.shift periodicity check_period minP sp i !!! d = 0.
Proof.
  intros Hd. rewrite lookup_shift, (ltb_not_lt _ _ Hd).
  by rewrite andb_false_r.
Qed.

(** The accumulation loop of [Manifold::get_new_point]. *)
Lemma lookup_generic_sum quad d :
  foldl (λ p i, Point.add p (Point.scale (get_points quad !!! i)
                                         (get_weights quad !!! i)))
        Point.zero (seq 0 (length (get_points quad))) !!! d =
  foldl (λ x i, x + (get_points quad !!! i) !!! d * get_weights quad !!! i)
        0 (seq 0 (length (get_points quad))).
Proof.
  rewrite (lookup_foldl_add (λ i, Point.scale _ _)), lookup_zero.
  apply foldl_ext_in. intros x i _. by rewrite lookup_scale.
Qed.

(** On an axis without period the candidate has the coordinate that the
    generic loop accumulates. *)
Lemma lookup_candidate_unperiodic periodicity quad d :
  ¬ 0 < periodicity !!! d →
  Steps.candidate periodicity quad !!! d =
  foldl (λ x i, x + (get_points quad !!! i) !!! d * get_weights quad !!! i)
        0 (seq 0 (length (get_points quad))).
Proof.
  intros Hd.
  assert (Hacc : ∀ (check_period : bool) minP,
    Steps.accumulated periodicity check_period minP quad !!! d =
    foldl (λ x i, x + (get_points quad !!! i) !!! d * get_weights quad !!! i)
          0 (seq 0 (length (get_points quad)))).
  { intros check_period minP. rewrite lookup_accumulated.
    apply foldl_ext_in. intros x i _.
    rewrite lookup_shift_unperiodic by done. ring. }
  unfold Steps.candidate. destruct (Point.norm_nonzero periodicity).
  - by rewrite lookup_wrapped, (ltb_not_lt _ _ Hd).
  - apply Hacc.
Qed.

End Unperiodic.

(** X2. Where no axis has a positive period, [FlatManifold::get_new_point]
    is [Manifold::get_new_point] with the identity as projection: the same
    point or the same failure, for every quadrature. *)
Theorem flat_without_period_is_generic {spacedim : nat} (DEBUG : bool)
    (periodicity : Point spacedim) (quad : Quadrature spacedim) :
  (∀ d, ¬ 0 < periodicity !!! d) →
  FlatManifold.get_new_point DEBUG periodicity quad =
  Manifold.get_new_point DEBUG FlatManifold.project_to_manifold quad.
Proof.
  intros Hflat. unfold Manifold.get_new_point.
  destruct (check_weights_cases DEBUG (get_weights quad)) as [Hok|Hbad].
  - rewrite flat_run_checked; [|done|by intros s d _ ?%Hflat].
    rewrite Hok. simpl. unfold FlatManifold.project_to_manifold. f_equal.
    apply vec_eq. intros d.
    by rewrite lookup_candidate_unperiodic, lookup_generic_sum.
  - unfold FlatManifold.get_new_point. by rewrite Hbad.
Qed.

Lemma flat_without_period_is_generic_witness :
  (∀ d, ¬ 0 < Inputs.open_line !!! d) ∧
  FlatManifold.get_new_point true Inputs.open_line Inputs.across_seam =
  Manifold.get_new_point true FlatManifold.project_to_manifold
    Inputs.across_seam.
Proof.
  assert (Hflat : ∀ d, ¬ 0 < Inputs.open_line !!! d) by by_evaluation.
  split; [exact Hflat|].
  exact (flat_without_period_is_generic true Inputs.open_line
           Inputs.across_seam Hflat).
Defined.

(** ** The base class and the empty quadrature *)

(** X3. A manifold that keeps the [project_to_manifold] of the base class
    places no point: [Manifold::get_new_point] ends in a failure for every
    quadrature, the pure-function failure once the weight check is passed. *)
Theorem base_class_places_no_point {spacedim : nat} (DEBUG : bool)
    (quad : Quadrature spacedim) :
  (Manifold.get_new_point DEBUG Manifold.project_to_manifold quad =
     Raise ExcPureFunctionCalled ∨
   Manifold.get_new_point DEBUG Manifold.project_to_manifold quad =
     Raise bad_weights) ∧
  Manifold.get_new_point false Manifold.project_to_manifold quad =
    Raise ExcPureFunctionCalled.
Proof.
  split; [|reflexivity]. unfold Manifold.get_new_point.
  destruct (check_weights_cases DEBUG (get_weights quad)) as [->| ->];
    [by left|by right].
Qed.

(** X4. Without sample points nothing is averaged.  Where the weight check
    is not compiled in, [Manifold::get_new_point] projects the origin and
    [FlatManifold::get_new_point] returns it, whatever the periodicity and
    the weights; a [DEBUG] build refuses the quadrature without weights. *)
Theorem no_sample_points {spacedim : nat}
    (this_project_to_manifold :
       list (Point spacedim) → Point spacedim → result (Point spacedim))
    (periodicity : Point spacedim) (weights : list Qc) :
  Manifold.get_new_point false this_project_to_manifold
    (mkQuadrature [] weights) = this_project_to_manifold [] Point.zero ∧
  FlatManifold.get_new_point false periodicity (mkQuadrature [] weights) =
    Ok Point.zero ∧
  FlatManifold.get_new_point true periodicity (mkQuadrature [] []) =
    Raise bad_weights.
Proof.
  split; [reflexivity|]. split.
  - rewrite flat_run_checked; [|done|by intros s d ?%elem_of_nil].
    f_equal. unfold Steps.candidate.
    destruct (Point.norm_nonzero periodicity); [|done].
    apply vec_eq. intros d. rewrite lookup_wrapped.
    change (Steps.accumulated periodicity true _ (mkQuadrature [] weights))
      with (Point.zero : Point spacedim).
    rewrite lookup_zero.
    replace (ltb 0 0) with false by (symmetry; by apply ltb_ge).
    by destruct (ltb 0 (periodicity !!! d)).
  - unfold FlatManifold.get_new_point. cbn [get_weights].
    rewrite check_weights_raise; [done|]. by_evaluation.
Qed.

(** ** Bounds on weighted sums *)

Lemma Qc_eq_this (x y : Qc) : x = y ↔ (this x == this y)%Q.
Proof. split; [by intros ->|apply Qc_is_canon]. Qed.

(** Order goals on [Qc] are handed to linear arithmetic on [Q]. *)
Ltac qc_to_q :=
  repeat match goal with
  | H : @eq Qc _ _ |- _ => apply Qc_eq_this in H
  end;
  try apply Qc_eq_this;
  unfold Qcle, Qclt, Qcminus in *;
  unfold Qcplus, Qcmult, Qcopp in *;
  cbn [this Q2Qc] in *;
  repeat match goal with
  | H : context [Qred ?q] |- _ => rewrite (Qred_correct q) in H
  | |- context [Qred ?q] => rewrite (Qred_correct q)
  end.

Section Sums.
Implicit Types (a b t w : nat → Qc) (l : list nat) (x y c lo hi : Qc).

Lemma fold_from t l x :
  foldl (λ x i, x + t i) x l = x + foldl (λ x i, x + t i) 0 l.
Proof.
  revert x. induction l as [|i l IH]; intros x; simpl; [ring|].
  rewrite IH, (IH (0 + t i)). ring.
Qed.

Lemma fold_constant c w l :
  foldl (λ x i, x + c * w i) 0 l = c * foldl (λ x i, x + w i) 0 l.
Proof.
  induction l as [|i l IH]; simpl; [ring|].
  rewrite (fold_from (λ i, c * w i)), (fold_from w), IH. ring.
Qed.

(** Termwise comparison of two accumulated sums. *)
Lemma fold_le a b l x y :
  (∀ i, i ∈ l → a i ≤ b i) → x ≤ y →
  foldl (λ x i, x + a i) x l ≤ foldl (λ x i, x + b i) y l.
Proof.
  revert x y. induction l as [|i l IH]; intros x y Hab Hxy; [done|].
  simpl. apply IH.
  - intros j Hj. apply Hab. by right.
  - assert (a i ≤ b i) by (apply Hab; by left). qc_to_q. lra.
Qed.

Lemma weighted_fold_ge a w l lo :
  (∀ i, i ∈ l → 0 ≤ w i) → (∀ i, i ∈ l → lo ≤ a i) →
  lo * foldl (λ x i, x + w i) 0 l ≤ foldl (λ x i, x + a i * w i) 0 l.
Proof.
  intros Hw Ha. rewrite <- fold_constant.
  apply (fold_le (λ i, lo * w i) (λ i, a i * w i)); [|done].
  intros i Hi. specialize (Hw i Hi). specialize (Ha i Hi). qc_to_q. nra.
Qed.

End Sums.

(** ** The minimum kept by the first loop *)

Section Lowest.
Context {spacedim : nat}.
Implicit Types (periodicity minP m p : Point spacedim) (d : fin spacedim).
Implicit Types (sp : list (Point spacedim)) (quad : Quadrature spacedim).

Lemma min_cases (a b : Qc) : std.min a b = a ∨ std.min a b = b.
Proof. unfold std.min. destruct (ltb b a); auto. Qed.

(** [minP] is the period or the coordinate of a sample. *)
Lemma lowest_attained periodicity sp d :
  Steps.lowest periodicity sp !!! d = periodicity !!! d ∨
  ∃ s : Point spacedim, s ∈ sp ∧ Steps.lowest periodicity sp !!! d = s !!! d.
Proof.
  unfold Steps.lowest.
  induction sp as [|s sp IH] using rev_ind; [by left|].
  rewrite foldl_app. simpl. rewrite vlookup_zip_with.
  destruct (min_cases (foldl (vzip_with std.min) periodicity sp !!! d)
              (s !!! d)) as [-> | ->].
  - destruct IH as [?|(s' & Hs' & ?)]; [by left|].
    right. exists s'. split; [|done]. apply elem_of_app. by left.
  - right. exists s. split; [|done]. apply elem_of_app. right. by left.
Qed.

End Lowest.

(** ** Periodic axes *)

Section Box.
Context {spacedim : nat}.
Implicit Types (periodicity minP m p : Point spacedim) (d : fin spacedim).
Implicit Types (sp : list (Point spacedim)) (quad : Quadrature spacedim).

Lemma index_weight_nonneg quad (i : nat) :
  Spec.aligned quad → (∀ w, w ∈ get_weights quad → 0 ≤ w) →
  i ∈ seq 0 (length (get_points quad)) → 0 ≤ get_weights quad !!! i.
Proof.
  intros Hlen Hw [_ Hi]%elem_of_seq. apply Hw.
  apply list_elem_of_lookup_total_2. rewrite <- Hlen. lia.
Qed.

Lemma index_sample quad (i : nat) :
  i ∈ seq 0 (length (get_points quad)) →
  get_points quad !!! i ∈ get_points quad.
Proof.
  intros [_ Hi]%elem_of_seq. apply list_elem_of_lookup_total_2. lia.
Qed.

(** The coordinate of the candidate on a periodic axis: the sum of the
    shifted samples, moved up by the period when it is negative. *)
Lemma lookup_candidate_periodic periodicity quad d :
  0 < periodicity !!! d →
  Steps.candidate periodicity quad !!! d =
  let F :=
    foldl (λ x i,
             x + ((get_points quad !!! i) !!! d +
                  FlatManifold.shift periodicity true
                    (Steps.lowest periodicity (get_points quad))
                    (get_points quad) i !!! d) * get_weights quad !!! i)
          0 (seq 0 (length (get_points quad))) in
  if ltb F 0 then F + periodicity !!! d else F.
Proof.
  intros Hper. unfold Steps.candidate.
  rewrite (norm_nonzero_periodic periodicity d Hper).
  rewrite lookup_wrapped, (proj2 (ltb_lt _ _) Hper).
  by rewrite lookup_accumulated.
Qed.

Lemma below_period_of_box periodicity quad :
  (∀ s, s ∈ get_points quad → Spec.in_periodic_box periodicity s) →
  Spec.below_period periodicity quad.
Proof.
  intros Hbox s d Hs Hper. apply below_with_tolerance. by apply Hbox.
Qed.

End Box.


(** X6. Away from the seam the periodic average is the ordinary one: when
    the samples lie in the periodic box, the weights are not negative and, on
    a periodic axis of period [L], no two samples are more than [L/2] apart,
    the coordinate returned on that axis is the plain weighted sum. *)
Theorem clustered_samples_plain_sum {spacedim : nat} (DEBUG : bool)
    (periodicity : Point spacedim) (quad : Quadrature spacedim)
    (d : fin spacedim) :
  Spec.aligned quad →
  (DEBUG = true → Spec.normalised quad) →
  (∀ w, w ∈ get_weights quad → 0 ≤ w) →
  (∀ s, s ∈ get_points quad → Spec.in_periodic_box periodicity s) →
  0 < periodicity !!! d →
  (∀ s s' : Point spacedim, s ∈ get_points quad → s' ∈ get_points quad →
     s !!! d - s' !!! d ≤ periodicity !!! d / Q2Qc 2.0) →
  ∃ p : Point spacedim,
    FlatManifold.get_new_point DEBUG periodicity quad = Ok p ∧
    p !!! d = Spec.weighted_centroid quad !!! d.
Proof.
  intros Hlen Hsum Hw Hbox Hper Hnear.
  exists (Steps.candidate periodicity quad). split.
  { apply flat_run; [done|]. by apply below_period_of_box. }
  rewrite lookup_candidate_periodic by done. cbv zeta.
  set (m0 := Steps.lowest periodicity (get_points quad)).
  pose proof (half_positive _ Hper) as Hh.
  assert (Hshift : ∀ i, i ∈ seq 0 (length (get_points quad)) →
            FlatManifold.shift periodicity true m0 (get_points quad) i !!! d
            = 0).
  { intros i Hi. pose proof (index_sample quad i Hi) as Hs.
    rewrite lookup_shift, (proj2 (ltb_lt _ _) Hper). simpl.
    rewrite (proj2 (ltb_ge _ _)); [done|].
    destruct (lowest_attained periodicity (get_points quad) d)
      as [Hm|(s' & Hs' & Hm)]; fold m0 in Hm; rewrite Hm.
    - destruct (Hbox _ Hs d Hper) as [_ HsL]. clear -HsL Hh.
      revert Hh. generalize (periodicity !!! d / Q2Qc 2.0). intros h Hh.
      qc_to_q. lra.
    - by apply Hnear. }
  rewrite (foldl_ext_in _
    (λ x i, x + (get_points quad !!! i) !!! d * get_weights quad !!! i)).
  2: { intros x i Hi. rewrite (Hshift i Hi). ring. }
  rewrite <- lookup_weighted_centroid by done.
  rewrite (proj2 (ltb_ge _ _)); [done|].
  rewrite lookup_weighted_centroid by done.
  eapply Qcle_trans;
    [|apply (weighted_fold_ge (λ i, (get_points quad !!! i) !!! d)
               (λ i, get_weights quad !!! i) _ 0)].
  - rewrite Qcmult_0_l. apply Qcle_refl.
  - intros i Hi. by apply index_weight_nonneg.
  - intros i Hi. by apply (Hbox _ (index_sample quad i Hi) d Hper).
Qed.

Lemma clustered_samples_plain_sum_witness :
  Spec.aligned Inputs.near_quadrature ∧
  (true = true → Spec.normalised Inputs.near_quadrature) ∧
  (∀ w, w ∈ get_weights Inputs.near_quadrature → 0 ≤ w) ∧
  (∀ s, s ∈ get_points Inputs.near_quadrature →
     Spec.in_periodic_box Inputs.cylinder s) ∧
  0 < Inputs.cylinder !!! (0%fin : fin 2) ∧
  (∀ s s' : Point 2,
     s ∈ get_points Inputs.near_quadrature →
     s' ∈ get_points Inputs.near_quadrature →
     s !!! (0%fin : fin 2) - s' !!! (0%fin : fin 2) ≤
     Inputs.cylinder !!! (0%fin : fin 2) / Q2Qc 2.0) ∧
  ∃ p : Point 2,
    FlatManifold.get_new_point true Inputs.cylinder Inputs.near_quadrature =
      Ok p ∧
    p !!! (0%fin : fin 2) =
      Spec.weighted_centroid Inputs.near_quadrature !!! (0%fin : fin 2).
Proof.
  assert (Hlen : Spec.aligned Inputs.near_quadrature) by reflexivity.
  assert (Hsum : true = true → Spec.normalised Inputs.near_quadrature).
  { intros _. unfold Spec.normalised. by_evaluation. }
  assert (Hw : ∀ w, w ∈ get_weights Inputs.near_quadrature → 0 ≤ w).
  { apply Forall_forall. by_evaluation. }
  assert (Hbox : ∀ s, s ∈ get_points Inputs.near_quadrature →
                      Spec.in_periodic_box Inputs.cylinder s).
  { apply Forall_forall. unfold Spec.in_periodic_box. by_evaluation. }
  assert (Hper : 0 < Inputs.cylinder !!! (0%fin : fin 2)) by by_evaluation.
  assert (Hnear : ∀ s s' : Point 2,
            s ∈ get_points Inputs.near_quadrature →
            s' ∈ get_points Inputs.near_quadrature →
            s !!! (0%fin : fin 2) - s' !!! (0%fin : fin 2) ≤
            Inputs.cylinder !!! (0%fin : fin 2) / Q2Qc 2.0).
  { intros s s' Hs. revert s'. apply Forall_forall.
    revert s Hs. apply Forall_forall. by_evaluation. }
  repeat (split; [assumption|]).
  exact (clustered_samples_plain_sum true Inputs.cylinder
           Inputs.near_quadrature 0%fin Hlen Hsum Hw Hbox Hper Hnear).
Defined.

(** ** Entities *)

(** X12. The template builder knows lines and quads only: at every other
    structure dimension it raises the internal error, whatever the entity and
    the weighting mode. *)
Theorem template_builder_other_dimensions {spacedim : nat} {Accessor : Type}
    `{!TriaAccessor spacedim Accessor} (structure_dimension : nat)
    (obj : Accessor) (with_laplace : bool) :
  structure_dimension ≠ 1%nat → structure_dimension ≠ 2%nat →
  Manifolds.get_default_quadrature structure_dimension obj with_laplace =
  Raise ExcInternalError.
Proof.
  intros H1 H2. unfold Manifolds.get_default_quadrature.
  rewrite generic_builder_dimension.
  by destruct structure_dimension as [|[|[|?]]].
Qed.

Lemma template_builder_other_dimensions_witness :
  0%nat ≠ 1%nat ∧ 0%nat ≠ 2%nat ∧
  Manifolds.get_default_quadrature 0 Mesh.unit_interval false =
  Raise ExcInternalError.
Proof.
  assert (H1 : 0%nat ≠ 1%nat) by lia.
  assert (H2 : 0%nat ≠ 2%nat) by lia.
  repeat (split; [assumption|]).
  exact (template_builder_other_dimensions 0 Mesh.unit_interval false H1 H2).
Defined.

(** X13. The entity queries hand [get_new_point] the default quadrature of
    the entity, always in plain mode: a line (the cell of a manifold of
    dimension 1, the face of one of dimension 2) gives its two vertices with
    weight 0.5; a quad (the cell in dimension 2, the face in dimension 3)
    gives its vertices and edge samples with weight 1/8.  The builder adds
    no failure of its own. *)
Theorem entity_queries_use_plain_quadrature {spacedim : nat}
    {Accessor : Type} `{!TriaAccessor spacedim Accessor}
    (this_get_new_point : Quadrature spacedim → result (Point spacedim))
    (entity : Accessor) :
  let line_quadrature :=
    mkQuadrature [vertex entity 0; vertex entity 1] [Q2Qc 0.5; Q2Qc 0.5] in
  let quad_quadrature :=
    mkQuadrature
      ((vertex entity <$> seq 0 4) ++ (Spec.edge_sample entity <$> seq 0 4))
      (replicate 8 (1 / Q2Qc 8)) in
  Manifold.get_new_point_on_line this_get_new_point entity =
    this_get_new_point line_quadrature ∧
  Manifold.get_new_point_on_cell 1 this_get_new_point entity =
    this_get_new_point line_quadrature ∧
  Manifold.get_new_point_on_face 2 this_get_new_point entity =
    this_get_new_point line_quadrature ∧
  Manifold.get_new_point_on_quad 2 this_get_new_point entity =
    this_get_new_point quad_quadrature ∧
  Manifold.get_new_point_on_cell 2 this_get_new_point entity =
    this_get_new_point quad_quadrature ∧
  Manifold.get_new_point_on_face 3 this_get_new_point entity =
    this_get_new_point quad_quadrature.
Proof.
  intros line_quadrature quad_quadrature.
  unfold Manifold.get_new_point_on_cell, Manifold.get_new_point_on_face,
    Manifold.get_new_point_on_face_template.
  unfold Manifold.get_new_point_on_quad,
    Manifold.get_new_point_on_quad_template, Manifold.get_new_point_on_line,
    Manifold.specialised_1, Manifolds.get_default_quadrature.
  rewrite generic_builder_dimension.
  rewrite !(bool_decide_false (_ ∧ _)) by (intros [? _]; lia).
  repeat split; reflexivity.
Qed.

(** X14. In flat space without period the new point of a line is the
    midpoint of its two vertices. *)
Theorem flat_line_midpoint {spacedim : nat} {Accessor : Type}
    `{!TriaAccessor spacedim Accessor} (DEBUG : bool)
    (periodicity : Point spacedim) (line : Accessor) :
  (∀ d, ¬ 0 < periodicity !!! d) →
  Manifold.get_new_point_on_line
    (FlatManifold.get_new_point DEBUG periodicity) line =
  Ok (Point.scale (Point.add (vertex line 0) (vertex line 1)) (Q2Qc 0.5)).
Proof.
  intros Hflat.
  unfold Manifold.get_new_point_on_line, Manifolds.get_default_quadrature.
  rewrite generic_builder_dimension. simpl.
  rewrite flat_run.
  - f_equal. apply vec_eq. intros d.
    rewrite lookup_candidate_unperiodic by done. simpl.
    rewrite lookup_scale, lookup_add. ring.
  - intros _. unfold Spec.normalised. simpl. by_evaluation.
  - by intros s d _ ?%Hflat.
Qed.

Lemma flat_line_midpoint_witness :
  (∀ d, ¬ 0 < Inputs.open_line !!! d) ∧
  Manifold.get_new_point_on_line
    (FlatManifold.get_new_point true Inputs.open_line) Mesh.unit_interval =
  Ok (Point.scale
        (Point.add (vertex Mesh.unit_interval 0) (vertex Mesh.unit_interval 1))
        (Q2Qc 0.5)).
Proof.
  assert (Hflat : ∀ d, ¬ 0 < Inputs.open_line !!! d) by by_evaluation.
  split; [exact Hflat|].
  exact (flat_line_midpoint true Inputs.open_line Mesh.unit_interval Hflat).
Defined.

(** ** The asserted bound, at work *)

Lemma sample_above_period_rejected_witness :
  (true = true → Spec.normalised Inputs.above_box) ∧
  (0 < length (get_points Inputs.above_box))%nat ∧
  0 < Inputs.circle !!! (0%fin : fin 1) ∧
  Inputs.circle !!! (0%fin : fin 1) + Q2Qc 1e-10 ≤
    (get_points Inputs.above_box !!! 0%nat) !!! (0%fin : fin 1) ∧
  FlatManifold.get_new_point true Inputs.circle Inputs.above_box =
  Raise (ExcMessage
    "One of the points does not lye into the periodic box! Bailing out.").
Proof.
  assert (Hsum : true = true → Spec.normalised Inputs.above_box).
  { intros _. unfold Spec.normalised. by_evaluation. }
  assert (Hi : (0 < length (get_points Inputs.above_box))%nat)
    by (simpl; lia).
  assert (Hper : 0 < Inputs.circle !!! (0%fin : fin 1)) by by_evaluation.
  assert (Habove : Inputs.circle !!! (0%fin : fin 1) + Q2Qc 1e-10 ≤
            (get_points Inputs.above_box !!! 0%nat) !!! (0%fin : fin 1))
    by by_evaluation.
  repeat (split; [assumption|]).
  exact (sample_above_period_rejected true Inputs.circle Inputs.above_box
           0 0%fin Hsum Hi Hper Habove).
Defined.
